(** * TokenAccess cryptographic library: a shallow embedding of
    [lib/LibTACrypto.py]

    The Python module is glue around three libraries: [base64] and
    [urllib.parse] of the standard library, and [cryptography]
    (hashes, HMAC, HKDF, HOTP, X25519).  The glue is embedded function by
    function ([PreSharedKey], [HashText], [getHotp]); the library calls it
    makes are embedded from the algorithms those libraries implement
    (RFC 4648, RFC 3986, FIPS 180-4, RFC 2104, RFC 5869, RFC 4226, RFC 7748)
    and from the argument checks their Python front ends perform.

    Python values: [bytes] is a list of bytes, [str] a list of Unicode code
    points, [int] is [Z]; an exception is the [Raise] branch of [result].

    Names: the code looks up its curve, its base and its algorithm by name.
    The lookups are described for the module [x25519], for the bases
    [b64], [standard_b64] and [urlsafe_b64] (and for the decoder that the
    empty base names), and for the classes [SHA1], [SHA224], [SHA256],
    [SHA384] and [SHA512].  The libraries have more names than these; a
    statement that depends on a name says which names it is about. *)

From Stdlib Require Import ZArith NArith List Lia Bool Ascii String.
From Stdlib Require Import Init.Byte Strings.Byte.
From Bignums Require Import BigZ.
Import ListNotations.
Local Open Scope Z_scope.
Local Open Scope list_scope.

(** ** Python values *)

Module Py.

Definition bytes := list byte.
Definition codepoint := N.
Definition str := list codepoint.

(** The exceptions the code can meet.  [Unmodelled] is no exception of
    Python: it is the outcome of a lookup by a name that this development
    does not describe, whether or not the library has that name. *)
Inductive exn : Set :=
| ValueError
| TypeError
| AttributeError
| ModuleNotFoundError
| OverflowError
| UnicodeEncodeError
| UnicodeDecodeError
| BinasciiError
| Unmodelled.

Inductive result (A : Type) : Type :=
| Ok (a : A)
| Raise (e : exn).

Arguments Ok {A} a.
Arguments Raise {A} e.

Definition bind {A B : Type} (r : result A) (k : A -> result B) : result B :=
  match r with
  | Ok a => k a
  | Raise e => Raise e
  end.

Definition fmap {A B : Type} (f : A -> B) (r : result A) : result B :=
  match r with
  | Ok a => Ok (f a)
  | Raise e => Raise e
  end.

(** A value whose Python type is only known at run time. *)
Inductive object : Type :=
| PyStr (s : str)
| PyBytes (b : bytes).

(** The characters of a value, whichever of the two types carries them. *)
Definition chars (o : object) : list N :=
  match o with
  | PyStr s => s
  | PyBytes b => map Byte.to_N b
  end.

(** Literals: the bytes of an ASCII literal, and the same as a [str]. *)
Definition b_ (s : string) : bytes := list_byte_of_string s.
Definition s_ (s : string) : str := map Byte.to_N (list_byte_of_string s).

Definition byte_to_Z (x : byte) : Z := Z.of_N (Byte.to_N x).

Definition byte_of_Z (z : Z) : byte :=
  match Byte.of_N (Z.to_N (z mod 256)) with
  | Some x => x
  | None => x00
  end.

(** [int.from_bytes(bs, byteorder="big")] *)
Definition int_from_bytes (bs : bytes) : Z :=
  fold_left (fun acc x => acc * 256 + byte_to_Z x) bs 0.

(** The [n] low-order bytes of [z], most significant first. *)
Fixpoint be_bytes (n : nat) (z : Z) : bytes :=
  match n with
  | O => []
  | S k => be_bytes k (z / 256) ++ [byte_of_Z z]
  end.

(** [z.to_bytes(length=n, byteorder="big")]: negative or too large an
    integer raises [OverflowError]. *)
Definition int_to_bytes (n : nat) (z : Z) : result bytes :=
  if (0 <=? z) && (z <? 256 ^ Z.of_nat n) then Ok (be_bytes n z)
  else Raise OverflowError.

(** Little-endian counterparts, used by the curve arithmetic. *)
Definition int_from_bytes_le (bs : bytes) : Z :=
  fold_right (fun x acc => byte_to_Z x + 256 * acc) 0 bs.

Fixpoint le_bytes (n : nat) (z : Z) : bytes :=
  match n with
  | O => []
  | S k => byte_of_Z z :: le_bytes k (z / 256)
  end.

Definition byte_xor (x y : byte) : byte :=
  byte_of_Z (Z.lxor (byte_to_Z x) (byte_to_Z y)).

Definition bytes_eqb (x y : bytes) : bool :=
  if list_eq_dec Byte.byte_eq_dec x y then true else false.

(** [bytes.fromhex(s)] for a literal of hexadecimal digits. *)
Definition hexdigit (a : ascii) : Z :=
  let n := Z.of_N (N_of_ascii a) in
  if n <? 58 then n - 48 else if n <? 71 then n - 55 else n - 87.

Fixpoint fromhex_list (l : list ascii) : bytes :=
  match l with
  | a :: b :: r => byte_of_Z (16 * hexdigit a + hexdigit b) :: fromhex_list r
  | _ => []
  end.

Definition fromhex (s : string) : bytes :=
  fromhex_list (list_ascii_of_string s).

End Py.

Import Py.

Declare Scope py_scope.
Notation "x <- r ;; k" := (bind r (fun x => k))
  (at level 61, r at next level, right associativity) : py_scope.
Local Open Scope py_scope.

(** ** [cryptography.hazmat.primitives.hashes]: SHA-1 and the SHA-2 family
    (FIPS 180-4) *)

Module Hashes.

(** Message padding: a [0x80] byte, zeros up to the block boundary, and the
    bit length on [lenbytes] bytes. *)
Definition pad (blk lenbytes : nat) (m : bytes) : bytes :=
  let l := List.length m in
  let k := ((blk - (l + 1 + lenbytes) mod blk) mod blk)%nat in
  m ++ x80 :: repeat x00 k ++ be_bytes lenbytes (8 * Z.of_nat l).

Fixpoint chunks (sz n : nat) (bs : bytes) : list bytes :=
  match n with
  | O => []
  | S k => firstn sz bs :: chunks sz k (skipn sz bs)
  end.

Definition blocks (sz : nat) (bs : bytes) : list bytes :=
  chunks sz (List.length bs / sz) bs.

Definition words (wbytes : nat) (blk : bytes) : list Z :=
  map int_from_bytes (blocks wbytes blk).

Definition state8 : Type := Z * Z * Z * Z * Z * Z * Z * Z.

Section SHA2.

(** Word size in bits and in bytes, round constants, and the rotation
    amounts of the four sigma functions. *)
Variable w : Z.
Variable wbytes : nat.
Variable K : list Z.
Variables (S0 S1 s0 s1 : Z * Z * Z).

Definition wrap (x : Z) : Z := x mod 2 ^ w.
Definition add (x y : Z) : Z := wrap (x + y).
Definition rotr (n x : Z) : Z :=
  wrap (Z.lor (Z.shiftr x n) (Z.shiftl x (w - n))).
Definition shr (n x : Z) : Z := Z.shiftr x n.
Definition lnot (x : Z) : Z := Z.lxor x (2 ^ w - 1).

Definition Ch (x y z : Z) : Z :=
  Z.lxor (Z.land x y) (Z.land (lnot x) z).
Definition Maj (x y z : Z) : Z :=
  Z.lxor (Z.lxor (Z.land x y) (Z.land x z)) (Z.land y z).

Definition bigsigma (r : Z * Z * Z) (x : Z) : Z :=
  let '(a, b, c) := r in Z.lxor (Z.lxor (rotr a x) (rotr b x)) (rotr c x).
Definition smallsigma (r : Z * Z * Z) (x : Z) : Z :=
  let '(a, b, c) := r in Z.lxor (Z.lxor (rotr a x) (rotr b x)) (shr c x).

(** Message schedule, kept newest word first while it is extended. *)
Fixpoint extend (n : nat) (rw : list Z) : list Z :=
  match n with
  | O => rw
  | S k =>
      let wt := add (add (add (smallsigma s1 (nth 1 rw 0)) (nth 6 rw 0))
                         (smallsigma s0 (nth 14 rw 0))) (nth 15 rw 0) in
      extend k (wt :: rw)
  end.

Definition schedule (blk : bytes) : list Z :=
  rev (extend (List.length K - 16) (rev (words wbytes blk))).

Definition round (st : state8) (kw : Z * Z) : state8 :=
  let '(a, b, c, d, e, f, g, h) := st in
  let t1 := add (add (add (add h (bigsigma S1 e)) (Ch e f g)) (fst kw))
                (snd kw) in
  let t2 := add (bigsigma S0 a) (Maj a b c) in
  (add t1 t2, a, b, c, add d t1, e, f, g).

Definition add8 (x y : state8) : state8 :=
  let '(a, b, c, d, e, f, g, h) := x in
  let '(a', b', c', d', e', f', g', h') := y in
  (add a a', add b b', add c c', add d d',
   add e e', add f f', add g g', add h h').

Definition compress (st : state8) (blk : bytes) : state8 :=
  add8 st (fold_left round (combine K (schedule blk)) st).

Definition serialize (st : state8) : bytes :=
  let '(a, b, c, d, e, f, g, h) := st in
  be_bytes wbytes a ++ be_bytes wbytes b ++ be_bytes wbytes c
  ++ be_bytes wbytes d ++ be_bytes wbytes e ++ be_bytes wbytes f
  ++ be_bytes wbytes g ++ be_bytes wbytes h.

(** The digest is the first [outlen] bytes of the final state. *)
Definition sha2 (iv : state8) (outlen : nat) (m : bytes) : bytes :=
  firstn outlen
    (serialize
       (fold_left compress
          (blocks (16 * wbytes) (pad (16 * wbytes) (2 * wbytes) m)) iv)).

End SHA2.

(** Round constants (FIPS 180-4, 4.2.2 and 4.2.3): the leading fraction bits
    of the cube roots of the first primes, 64 bits for each of eighty primes
    in the wide functions; the narrow functions use the upper 32 bits of the
    first sixty-four of them. *)
Definition K512 : list Z :=
  [ 0x428a2f98d728ae22; 0x7137449123ef65cd; 0xb5c0fbcfec4d3b2f;
    0xe9b5dba58189dbbc; 0x3956c25bf348b538; 0x59f111f1b605d019;
    0x923f82a4af194f9b; 0xab1c5ed5da6d8118; 0xd807aa98a3030242;
    0x12835b0145706fbe; 0x243185be4ee4b28c; 0x550c7dc3d5ffb4e2;
    0x72be5d74f27b896f; 0x80deb1fe3b1696b1; 0x9bdc06a725c71235;
    0xc19bf174cf692694; 0xe49b69c19ef14ad2; 0xefbe4786384f25e3;
    0x0fc19dc68b8cd5b5; 0x240ca1cc77ac9c65; 0x2de92c6f592b0275;
    0x4a7484aa6ea6e483; 0x5cb0a9dcbd41fbd4; 0x76f988da831153b5;
    0x983e5152ee66dfab; 0xa831c66d2db43210; 0xb00327c898fb213f;
    0xbf597fc7beef0ee4; 0xc6e00bf33da88fc2; 0xd5a79147930aa725;
    0x06ca6351e003826f; 0x142929670a0e6e70; 0x27b70a8546d22ffc;
    0x2e1b21385c26c926; 0x4d2c6dfc5ac42aed; 0x53380d139d95b3df;
    0x650a73548baf63de; 0x766a0abb3c77b2a8; 0x81c2c92e47edaee6;
    0x92722c851482353b; 0xa2bfe8a14cf10364; 0xa81a664bbc423001;
    0xc24b8b70d0f89791; 0xc76c51a30654be30; 0xd192e819d6ef5218;
    0xd69906245565a910; 0xf40e35855771202a; 0x106aa07032bbd1b8;
    0x19a4c116b8d2d0c8; 0x1e376c085141ab53; 0x2748774cdf8eeb99;
    0x34b0bcb5e19b48a8; 0x391c0cb3c5c95a63; 0x4ed8aa4ae3418acb;
    0x5b9cca4f7763e373; 0x682e6ff3d6b2b8a3; 0x748f82ee5defb2fc;
    0x78a5636f43172f60; 0x84c87814a1f0ab72; 0x8cc702081a6439ec;
    0x90befffa23631e28; 0xa4506cebde82bde9; 0xbef9a3f7b2c67915;
    0xc67178f2e372532b; 0xca273eceea26619c; 0xd186b8c721c0c207;
    0xeada7dd6cde0eb1e; 0xf57d4f7fee6ed178; 0x06f067aa72176fba;
    0x0a637dc5a2c898a6; 0x113f9804bef90dae; 0x1b710b35131c471b;
    0x28db77f523047d84; 0x32caab7b40c72493; 0x3c9ebe0a15c9bebc;
    0x431d67c49c100d4c; 0x4cc5d4becb3e42b6; 0x597f299cfc657e2a;
    0x5fcb6fab3ad6faec; 0x6c44198c4a475817 ].

Definition K256 : list Z :=
  Eval vm_compute in map (fun k => Z.shiftr k 32) (firstn 64 K512).

Definition sha2_32 : state8 -> nat -> bytes -> bytes :=
  sha2 32 4 K256 (2, 13, 22) (6, 11, 25) (7, 18, 3) (17, 19, 10).

Definition sha2_64 : state8 -> nat -> bytes -> bytes :=
  sha2 64 8 K512 (28, 34, 39) (14, 18, 41) (1, 8, 7) (19, 61, 6).

Definition sha256 : bytes -> bytes :=
  sha2_32 (0x6a09e667, 0xbb67ae85, 0x3c6ef372, 0xa54ff53a,
           0x510e527f, 0x9b05688c, 0x1f83d9ab, 0x5be0cd19) 32.

Definition sha224 : bytes -> bytes :=
  sha2_32 (0xc1059ed8, 0x367cd507, 0x3070dd17, 0xf70e5939,
           0xffc00b31, 0x68581511, 0x64f98fa7, 0xbefa4fa4) 28.

Definition sha512 : bytes -> bytes :=
  sha2_64 (0x6a09e667f3bcc908, 0xbb67ae8584caa73b, 0x3c6ef372fe94f82b,
           0xa54ff53a5f1d36f1, 0x510e527fade682d1, 0x9b05688c2b3e6c1f,
           0x1f83d9abfb41bd6b, 0x5be0cd19137e2179) 64.

Definition sha384 : bytes -> bytes :=
  sha2_64 (0xcbbb9d5dc1059ed8, 0x629a292a367cd507, 0x9159015a3070dd17,
           0x152fecd8f70e5939, 0x67332667ffc00b31, 0x8eb44a8768581511,
           0xdb0c2e0d64f98fa7, 0x47b5481dbefa4fa4) 48.

(** SHA-1 *)

Definition state5 : Type := Z * Z * Z * Z * Z.

Definition rotl32 (n x : Z) : Z :=
  wrap 32 (Z.lor (Z.shiftl x n) (Z.shiftr x (32 - n))).

Fixpoint sha1_extend (n : nat) (rw : list Z) : list Z :=
  match n with
  | O => rw
  | S k =>
      let wt := rotl32 1 (Z.lxor (Z.lxor (Z.lxor (nth 2 rw 0) (nth 7 rw 0))
                                         (nth 13 rw 0)) (nth 15 rw 0)) in
      sha1_extend k (wt :: rw)
  end.

Definition sha1_schedule (blk : bytes) : list Z :=
  rev (sha1_extend 64 (rev (words 4 blk))).

Definition sha1_f (t : nat) (x y z : Z) : Z :=
  if (t <? 20)%nat then Ch 32 x y z
  else if (t <? 40)%nat then Z.lxor (Z.lxor x y) z
  else if (t <? 60)%nat then Maj x y z
  else Z.lxor (Z.lxor x y) z.

Definition sha1_k (t : nat) : Z :=
  if (t <? 20)%nat then 0x5a827999
  else if (t <? 40)%nat then 0x6ed9eba1
  else if (t <? 60)%nat then 0x8f1bbcdc
  else 0xca62c1d6.

Definition sha1_round (st : state5) (tw : nat * Z) : state5 :=
  let '(a, b, c, d, e) := st in
  let t := fst tw in
  let tmp := add 32 (add 32 (add 32 (add 32 (rotl32 5 a) (sha1_f t b c d)) e)
                         (sha1_k t)) (snd tw) in
  (tmp, a, rotl32 30 b, c, d).

Definition sha1_compress (st : state5) (blk : bytes) : state5 :=
  let '(a, b, c, d, e) := st in
  let '(a', b', c', d', e') :=
    fold_left sha1_round (combine (seq 0 80) (sha1_schedule blk)) st in
  (add 32 a a', add 32 b b', add 32 c c', add 32 d d', add 32 e e').

Definition sha1 (m : bytes) : bytes :=
  let '(a, b, c, d, e) :=
    fold_left sha1_compress (blocks 64 (pad 64 8 m))
      (0x67452301, 0xefcdab89, 0x98badcfe, 0x10325476, 0xc3d2e1f0) in
  be_bytes 4 a ++ be_bytes 4 b ++ be_bytes 4 c ++ be_bytes 4 d
  ++ be_bytes 4 e.

(** The hash classes of the module that a caller can name.  The module has
    further attributes (SHA-3, BLAKE2, MD5, ...); they are outside this
    model. *)
Inductive HashAlgorithm : Set := SHA1 | SHA224 | SHA256 | SHA384 | SHA512.

Definition digest_size (h : HashAlgorithm) : nat :=
  match h with
  | SHA1 => 20 | SHA224 => 28 | SHA256 => 32 | SHA384 => 48 | SHA512 => 64
  end.

Definition block_size (h : HashAlgorithm) : nat :=
  match h with
  | SHA1 | SHA224 | SHA256 => 64
  | SHA384 | SHA512 => 128
  end.

(** [h = Hash(algorithm); h.update(m); h.finalize()] *)
Definition digest (h : HashAlgorithm) : bytes -> bytes :=
  match h with
  | SHA1 => sha1
  | SHA224 => sha224
  | SHA256 => sha256
  | SHA384 => sha384
  | SHA512 => sha512
  end.

(** [getattr(hashes, name)] for the five classes above.  Every other name
    (the further hash classes, the other attributes of the module, and the
    names that are no attribute at all) is left undescribed. *)
Definition getattr (name : string) : result HashAlgorithm :=
  if String.eqb name "SHA1" then Ok SHA1
  else if String.eqb name "SHA224" then Ok SHA224
  else if String.eqb name "SHA256" then Ok SHA256
  else if String.eqb name "SHA384" then Ok SHA384
  else if String.eqb name "SHA512" then Ok SHA512
  else Raise Unmodelled.

End Hashes.

(** ** Text codecs: [str.encode] and [bytes.decode] *)

Module Codecs.

Local Open Scope N_scope.

Definition byte_of_N (n : N) : byte :=
  match Byte.of_N n with
  | Some x => x
  | None => x00
  end.

Definition is_surrogate (c : codepoint) : bool :=
  (0xD800 <=? c) && (c <=? 0xDFFF).

(** UTF-8 form of one code point; a lone surrogate cannot be encoded. *)
Definition utf8_char (c : codepoint) : result bytes :=
  if c <? 0x80 then Ok [byte_of_N c]
  else if c <? 0x800 then
    Ok [byte_of_N (0xC0 + c / 64); byte_of_N (0x80 + c mod 64)]
  else if c <? 0x10000 then
    if is_surrogate c then Raise UnicodeEncodeError
    else Ok [byte_of_N (0xE0 + c / 4096);
             byte_of_N (0x80 + (c / 64) mod 64);
             byte_of_N (0x80 + c mod 64)]
  else if c <? 0x110000 then
    Ok [byte_of_N (0xF0 + c / 262144);
        byte_of_N (0x80 + (c / 4096) mod 64);
        byte_of_N (0x80 + (c / 64) mod 64);
        byte_of_N (0x80 + c mod 64)]
  else Raise UnicodeEncodeError.

(** [s.encode()], [bytes(s, 'UTF-8')] *)
Fixpoint str_encode (s : str) : result bytes :=
  match s with
  | [] => Ok []
  | c :: r =>
      x <- utf8_char c ;;
      y <- str_encode r ;;
      Ok (x ++ y)
  end.

(** [s.encode('ascii')] *)
Fixpoint ascii_encode (s : str) : result bytes :=
  match s with
  | [] => Ok []
  | c :: r =>
      if c <? 0x80 then fmap (cons (byte_of_N c)) (ascii_encode r)
      else Raise UnicodeEncodeError
  end.

Definition is_cont (x : byte) : bool :=
  (0x80 <=? Byte.to_N x) && (Byte.to_N x <=? 0xBF).

Definition cont_bits (x : byte) : N := Byte.to_N x mod 64.

(** [bs.decode()]: strict UTF-8, rejecting truncated and overlong forms,
    surrogates and values above U+10FFFF. *)
Fixpoint bytes_decode (bs : bytes) : result str :=
  match bs with
  | [] => Ok []
  | x0 :: r0 =>
      let n0 := Byte.to_N x0 in
      if n0 <? 0x80 then fmap (cons n0) (bytes_decode r0)
      else if (0xC2 <=? n0) && (n0 <=? 0xDF) then
        match r0 with
        | x1 :: r1 =>
            if is_cont x1
            then fmap (cons ((n0 mod 32) * 64 + cont_bits x1))
                      (bytes_decode r1)
            else Raise UnicodeDecodeError
        | _ => Raise UnicodeDecodeError
        end
      else if (0xE0 <=? n0) && (n0 <=? 0xEF) then
        match r0 with
        | x1 :: x2 :: r2 =>
            let c := (n0 mod 16) * 4096 + cont_bits x1 * 64 + cont_bits x2 in
            if is_cont x1 && is_cont x2 && (0x800 <=? c)
               && negb (is_surrogate c)
            then fmap (cons c) (bytes_decode r2)
            else Raise UnicodeDecodeError
        | _ => Raise UnicodeDecodeError
        end
      else if (0xF0 <=? n0) && (n0 <=? 0xF4) then
        match r0 with
        | x1 :: x2 :: x3 :: r3 =>
            let c := (n0 mod 8) * 262144 + cont_bits x1 * 4096
                     + cont_bits x2 * 64 + cont_bits x3 in
            if is_cont x1 && is_cont x2 && is_cont x3
               && (0x10000 <=? c) && (c <? 0x110000)
            then fmap (cons c) (bytes_decode r3)
            else Raise UnicodeDecodeError
        | _ => Raise UnicodeDecodeError
        end
      else Raise UnicodeDecodeError
  end.

End Codecs.

(** ** [base64] (with [binascii] underneath): the base64 family *)

Module Base64.

Definition alphabet : bytes :=
  b_ "ABCDEFGHIJKLMNOPQRSTUVWXYZabcdefghijklmnopqrstuvwxyz0123456789+/".

Definition BASE64_PAD : byte := "="%byte.

(** [table_b2a_base64[n]] *)
Definition table_b2a (n : N) : byte := nth (N.to_nat n) alphabet BASE64_PAD.

Fixpoint index_of (x : byte) (l : bytes) (i : N) : option N :=
  match l with
  | [] => None
  | y :: r => if Byte.eqb x y then Some i else index_of x r (N.succ i)
  end.

(** [table_a2b_base64[c]]: the sextet of an alphabet character, [None]
    for every other byte. *)
Definition table_a2b (c : byte) : option N := index_of c alphabet 0%N.

Local Open Scope N_scope.

(** [binascii.b2a_base64(bs, newline=False)] *)
Fixpoint b2a_base64 (bs : bytes) : bytes :=
  match bs with
  | [] => []
  | [x] =>
      let a := Byte.to_N x in
      [table_b2a (a / 4); table_b2a ((a mod 4) * 16); BASE64_PAD; BASE64_PAD]
  | [x; y] =>
      let a := Byte.to_N x in
      let b := Byte.to_N y in
      [table_b2a (a / 4); table_b2a ((a mod 4) * 16 + b / 16);
       table_b2a ((b mod 16) * 4); BASE64_PAD]
  | x :: y :: z :: rest =>
      let a := Byte.to_N x in
      let b := Byte.to_N y in
      let c := Byte.to_N z in
      table_b2a (a / 4) :: table_b2a ((a mod 4) * 16 + b / 16)
      :: table_b2a ((b mod 16) * 4 + c / 64) :: table_b2a (c mod 64)
      :: b2a_base64 rest
  end.

(** [binascii.a2b_base64(s, strict_mode=False)], the decoding loop:
    [quad_pos] counts the sextets of the current quantum, [leftchar] holds
    the bits not yet written, [pads] the pad characters seen since the last
    sextet.  A byte outside the alphabet is skipped; a pad that completes
    the quantum ends the decoding; a pad anywhere else is skipped. *)
Fixpoint a2b_loop (s : bytes) (quad_pos : nat) (leftchar : N) (pads : nat)
  : result bytes :=
  match s with
  | [] =>
      match quad_pos with
      | O => Ok []
      | _ => Raise BinasciiError
      end
  | this_ch :: rest =>
      if Byte.eqb this_ch BASE64_PAD then
        if (2 <=? quad_pos)%nat then
          if (4 <=? quad_pos + S pads)%nat then Ok []
          else a2b_loop rest quad_pos leftchar (S pads)
        else a2b_loop rest quad_pos leftchar pads
      else
        match table_a2b this_ch with
        | None => a2b_loop rest quad_pos leftchar pads
        | Some v =>
            match quad_pos with
            | 0%nat => a2b_loop rest 1 v 0
            | 1%nat =>
                fmap (cons (Codecs.byte_of_N (leftchar * 4 + v / 16)))
                     (a2b_loop rest 2 (v mod 16) 0)
            | 2%nat =>
                fmap (cons (Codecs.byte_of_N (leftchar * 16 + v / 4)))
                     (a2b_loop rest 3 (v mod 4) 0)
            | _ =>
                fmap (cons (Codecs.byte_of_N (leftchar * 64 + v)))
                     (a2b_loop rest 0 0 0)
            end
        end
  end.

Definition a2b_base64 (s : bytes) : result bytes := a2b_loop s 0 0 0.

(** [_bytes_from_decode_data(s)]: a [str] argument must be ASCII. *)
Definition bytes_from_decode_data (s : object) : result bytes :=
  match s with
  | PyStr t =>
      match Codecs.ascii_encode t with
      | Ok x => Ok x
      | Raise _ => Raise ValueError
      end
  | PyBytes x => Ok x
  end.

(** [bytes.translate] with [bytes.maketrans(from, to)] for two
    characters. *)
Definition translate2 (f1 t1 f2 t2 : byte) (s : bytes) : bytes :=
  map (fun x => if Byte.eqb x f1 then t1
                else if Byte.eqb x f2 then t2 else x) s.

Definition b64encode (s : bytes) : bytes := b2a_base64 s.

(** [b64decode(s)]: [validate] keeps its default [False]. *)
Definition b64decode (s : object) : result bytes :=
  x <- bytes_from_decode_data s ;;
  a2b_base64 x.

Definition standard_b64encode (s : bytes) : bytes := b64encode s.
Definition standard_b64decode (s : object) : result bytes := b64decode s.

Definition urlsafe_b64encode (s : bytes) : bytes :=
  translate2 "+" "-" "/" "_" (b64encode s).

Definition urlsafe_b64decode (s : object) : result bytes :=
  x <- bytes_from_decode_data s ;;
  b64decode (PyBytes (translate2 "-" "+" "_" "/" x)).

(** [decode(input, output)] reads one file and writes another.  Called
    with one argument, as the code calls whatever it has bound, it raises
    [TypeError] for the missing one. *)
Definition decode (input : object) : result bytes := Raise TypeError.

(** [getattr(base64, name)] for the encoders of the base64 family.  The
    module has further encoders (b16, b32, b32hex, a85, b85), and the empty
    base names [encode], which like [decode] takes two files and cannot be
    held as a function of one byte string: all of them are left
    undescribed. *)
Definition getattr_encode (name : string) : result (bytes -> bytes) :=
  if String.eqb name "b64encode" then Ok b64encode
  else if String.eqb name "standard_b64encode" then Ok standard_b64encode
  else if String.eqb name "urlsafe_b64encode" then Ok urlsafe_b64encode
  else Raise Unmodelled.

(** [getattr(base64, name)] for the decoders of the base64 family and for
    [decode], which the empty base names.  The further decoders (b16, b32,
    b32hex, a85, b85) are left undescribed. *)
Definition getattr_decode (name : string)
  : result (object -> result bytes) :=
  if String.eqb name "decode" then Ok decode
  else if String.eqb name "b64decode" then Ok b64decode
  else if String.eqb name "standard_b64decode" then Ok standard_b64decode
  else if String.eqb name "urlsafe_b64decode" then Ok urlsafe_b64decode
  else Raise Unmodelled.

(** Character classes: ASCII bytes, and the ASCII bytes that the URL-safe
    translation leaves alone. *)
Definition is_ascii (x : byte) : bool := Byte.to_N x <? 128.

Definition plain_char (x : byte) : bool :=
  is_ascii x && negb (Byte.eqb x "-") && negb (Byte.eqb x "_").

(** What the glue needs of an encoder and the decoder bound with it:
    decoding undoes encoding, the encoded text is ASCII, and a [str]
    argument is decoded as its ASCII bytes are. *)
Definition codec_ok (enc : bytes -> bytes) (dec : object -> result bytes)
  : Prop :=
  (forall b, dec (PyBytes (enc b)) = Ok b)
  /\ (forall b, forallb is_ascii (enc b) = true)
  /\ (forall s, forallb is_ascii s = true ->
                dec (PyStr (map Byte.to_N s)) = dec (PyBytes s)).

(** The alphabet characters, and the position in the quantum after one
    more of them. *)
Definition is_sextet_char (x : byte) : bool :=
  match table_a2b x with
  | Some _ => negb (Byte.eqb x BASE64_PAD)
  | None => false
  end.

Definition next_pos (q : nat) : nat :=
  match q with
  | 0 => 1 | 1 => 2 | 2 => 3 | _ => 0
  end%nat.

End Base64.

(** ** [urllib.parse]: percent quoting *)

Module Urllib.

Definition always_safe : bytes :=
  b_ "ABCDEFGHIJKLMNOPQRSTUVWXYZabcdefghijklmnopqrstuvwxyz0123456789_.-~".

Definition mem (x : byte) (l : bytes) : bool := existsb (Byte.eqb x) l.

Definition hexdig_upper (n : N) : codepoint :=
  Byte.to_N (nth (N.to_nat n) (b_ "0123456789ABCDEF") "0"%byte).

(** One byte of [quote_from_bytes]: itself when safe, [%XX] otherwise. *)
Definition quoter (safe : bytes) (x : byte) : str :=
  if mem x (always_safe ++ safe) then [Byte.to_N x]
  else [Byte.to_N "%"%byte; hexdig_upper (Byte.to_N x / 16);
        hexdig_upper (Byte.to_N x mod 16)]%N.

(** [quote_from_bytes(bs)], with [safe='/'] by default. *)
Definition quote_from_bytes (bs : bytes) : str :=
  flat_map (quoter (b_ "/")) bs.

(** Value of a hexadecimal digit, in either case. *)
Definition hexval (x : byte) : option N :=
  let n := Byte.to_N x in
  if (48 <=? n)%N && (n <=? 57)%N then Some (n - 48)%N
  else if (65 <=? n)%N && (n <=? 70)%N then Some (n - 55)%N
  else if (97 <=? n)%N && (n <=? 102)%N then Some (n - 87)%N
  else None.

(** The scan of [unquote_to_bytes] over the UTF-8 form of its argument:
    [%] followed by two hexadecimal digits is one byte, every other
    character stands for itself. *)
Fixpoint unquote_scan (s : bytes) : bytes :=
  match s with
  | [] => []
  | x :: r =>
      if Byte.eqb x "%" then
        match r with
        | h :: l :: r' =>
            match hexval h, hexval l with
            | Some a, Some b =>
                Codecs.byte_of_N (16 * a + b) :: unquote_scan r'
            | _, _ => x :: unquote_scan r
            end
        | _ => x :: unquote_scan r
        end
      else x :: unquote_scan r
  end.

Definition unquote_to_bytes (s : str) : result bytes :=
  x <- Codecs.str_encode s ;;
  Ok (unquote_scan x).

(** The same quoting written as bytes: what [quote_from_bytes] returns is
    ASCII text. *)
Definition quoter_bytes (safe : bytes) (x : byte) : bytes :=
  if mem x (always_safe ++ safe) then [x]
  else ["%"%byte;
        nth (N.to_nat (Byte.to_N x / 16)) (b_ "0123456789ABCDEF") "0"%byte;
        nth (N.to_nat (Byte.to_N x mod 16)) (b_ "0123456789ABCDEF") "0"%byte].

End Urllib.

(** ** Character classes of the texts the library exchanges *)

Module Text.

(** The characters of base64 text, in either alphabet, with the pad. *)
Definition base64_char (x : byte) : bool :=
  Urllib.mem x (Base64.alphabet ++ b_ "=-_").

(** The characters [quote_from_bytes] can write: the unreserved ones, the
    slash it keeps by default, and the percent sign of an escape. *)
Definition url_char (x : byte) : bool :=
  Urllib.mem x (Urllib.always_safe ++ b_ "/%").

Definition not_percent (x : byte) : bool := negb (Byte.eqb x "%").

(** The code points [str.encode] can write: every one of the Unicode range
    but the surrogates. *)
Definition is_scalar (c : codepoint) : bool :=
  (c <? 0x110000)%N && negb (Codecs.is_surrogate c).

End Text.

(** ** The names this development describes *)

Module Names.

(** The bases of the base64 family. *)
Definition base64_family : list string :=
  ["b64"; "standard_b64"; "urlsafe_b64"]%string.

(** The hash classes of SHA-1 and SHA-2. *)
Definition sha_names : list string :=
  ["SHA1"; "SHA224"; "SHA256"; "SHA384"; "SHA512"]%string.

End Names.

(** ** [cryptography.hazmat.primitives]: HMAC, HKDF and HOTP *)

Module Primitives.

Import Hashes.

(** [h = hmac.HMAC(key, algorithm); h.update(msg); h.finalize()]
    (RFC 2104): a key longer than a block is hashed first. *)
Definition hmac (h : HashAlgorithm) (key msg : bytes) : bytes :=
  let bs := block_size h in
  let k0 := if (bs <? List.length key)%nat then digest h key else key in
  let k := k0 ++ repeat x00 (bs - List.length k0) in
  digest h (map (byte_xor x5c) k
            ++ digest h (map (byte_xor x36) k ++ msg)).

(** The loop of [HKDFExpand._expand]: [n] blocks, each the HMAC of the
    previous block, [info] and a one-byte counter. *)
Fixpoint expand_blocks (h : HashAlgorithm) (prk info : bytes) (n : nat)
  (counter : Z) (prev : bytes) : bytes :=
  match n with
  | O => []
  | S k =>
      let t := hmac h prk (prev ++ info ++ [byte_of_Z counter]) in
      t ++ expand_blocks h prk info k (counter + 1) t
  end.

(** Number of turns of [while digest_size * (len(output) - 1) < length]. *)
Definition expand_turns (h : HashAlgorithm) (length : nat) : nat :=
  ((length + digest_size h - 1) / digest_size h)%nat.

(** [HKDF(algorithm, length, salt=None, info).derive(key_material)]
    (RFC 5869).  The constructor refuses a length above
    [255 * digest_size]; an absent salt is [digest_size] zero bytes. *)
Definition hkdf_derive (h : HashAlgorithm) (length : nat) (info : bytes)
  (key_material : bytes) : result bytes :=
  if (255 * digest_size h <? length)%nat then Raise ValueError
  else
    let salt := repeat x00 (digest_size h) in
    let prk := hmac h salt key_material in
    Ok (firstn length
          (expand_blocks h prk info (expand_turns h length) 1 [])).

(** Decimal digits of a non-negative integer, least significant first;
    [fuel] bounds the number of digits. *)
Fixpoint decimal_rev (fuel : nat) (v : Z) : bytes :=
  match fuel with
  | O => []
  | S k =>
      byte_of_Z (48 + v mod 10)
      :: (if v <? 10 then [] else decimal_rev k (v / 10))
  end.

Definition decimal (v : Z) : bytes :=
  rev (decimal_rev (S (Z.to_nat (Z.log2 v))) v).

(** ["{0:0{1}}".format(v, width).encode()]: at least [width] characters,
    zeros in front. *)
Definition format_zero_padded (v : Z) (width : nat) : bytes :=
  let d := decimal v in
  repeat "0"%byte (width - List.length d) ++ d.

Definition is_digit (x : byte) : bool :=
  ((48 <=? Byte.to_N x) && (Byte.to_N x <=? 57))%N.

(** [HOTP._dynamic_truncate(counter)] (RFC 4226, section 5.3) *)
Definition dynamic_truncate (h : HashAlgorithm) (key : bytes) (counter : Z)
  : result Z :=
  match int_to_bytes 8 counter with
  | Raise _ => Raise ValueError
  | Ok msg =>
      let hmac_value := hmac h key msg in
      let offset :=
        Z.to_nat (Z.land (byte_to_Z (last hmac_value x00)) 15) in
      let p := firstn 4 (skipn offset hmac_value) in
      Ok (Z.land (int_from_bytes p) 0x7FFFFFFF)
  end.

(** [HOTP(key, length, algorithm).generate(counter)]: the constructor
    wants a key of 128 bits at least, a length from 6 to 8 and one of
    SHA1, SHA256 and SHA512; the value comes back as [bytes]. *)
Definition hotp_generate (key : bytes) (length : Z) (h : HashAlgorithm)
  (counter : Z) : result bytes :=
  if (List.length key <? 16)%nat then Raise ValueError
  else if (length <? 6) || (8 <? length) then Raise ValueError
  else
    match h with
    | SHA1 | SHA256 | SHA512 =>
        truncated_value <- dynamic_truncate h key counter ;;
        let hotp := truncated_value mod 10 ^ length in
        Ok (format_zero_padded hotp (Z.to_nat length))
    | _ => Raise TypeError
    end.

End Primitives.

(** ** Decimal digits *)

Module Digits.

(** The [w] low-order decimal digits of [v], least significant first. *)
Fixpoint lsd (w : nat) (v : Z) : bytes :=
  match w with
  | O => []
  | S k => byte_of_Z (48 + v mod 10) :: lsd k (v / 10)
  end.

End Digits.

(** ** [cryptography.hazmat.primitives.asymmetric]: X25519 (RFC 7748) *)

Module Asymmetric.

(** Field elements are arbitrary-precision integers on machine words
    ([bigZ]), so that the ladder can be run; [p25519_Z] is the same prime
    as a [Z]. *)
Definition p25519_Z : Z := 2 ^ 255 - 19.
Definition p25519 : bigZ := Eval vm_compute in BigZ.of_Z p25519_Z.
Definition a24 : bigZ := 121665.

Definition fadd (x y : bigZ) : bigZ := ((x + y) mod p25519)%bigZ.
Definition fsub (x y : bigZ) : bigZ := ((x - y) mod p25519)%bigZ.
Definition fmul (x y : bigZ) : bigZ := ((x * y) mod p25519)%bigZ.

Fixpoint fpow_pos (x : bigZ) (e : positive) : bigZ :=
  match e with
  | xH => (x mod p25519)%bigZ
  | xO e' => let y := fpow_pos x e' in fmul y y
  | xI e' => let y := fpow_pos x e' in fmul x (fmul y y)
  end.

Definition finv (x : bigZ) : bigZ := fpow_pos x (Z.to_pos (p25519_Z - 2)).

(** [decodeScalar25519]: the three low bits and the top bit cleared, bit
    254 set. *)
Definition decode_scalar (k : bytes) : Z :=
  Z.lor (Z.land (int_from_bytes_le k) (2 ^ 255 - 8)) (2 ^ 254).

(** [decodeUCoordinate]: the top bit masked, the value reduced. *)
Definition decode_u (u : bytes) : bigZ :=
  (BigZ.of_Z (Z.land (int_from_bytes_le u) (2 ^ 255 - 1)) mod p25519)%bigZ.

Definition ladder_state : Type := bigZ * bigZ * bigZ * bigZ * bool.

Definition cswap (swap : bool) (x y : bigZ) : bigZ * bigZ :=
  if swap then (y, x) else (x, y).

(** One turn of the Montgomery ladder, for bit [t] of the scalar. *)
Definition ladder_step (k : Z) (x1 : bigZ) (st : ladder_state) (t : nat)
  : ladder_state :=
  let '(x2, z2, x3, z3, swap) := st in
  let kt := Z.testbit k (Z.of_nat t) in
  let swap := xorb swap kt in
  let '(x2, x3) := cswap swap x2 x3 in
  let '(z2, z3) := cswap swap z2 z3 in
  let A := fadd x2 z2 in
  let AA := fmul A A in
  let B := fsub x2 z2 in
  let BB := fmul B B in
  let E := fsub AA BB in
  let C := fadd x3 z3 in
  let D := fsub x3 z3 in
  let DA := fmul D A in
  let CB := fmul C B in
  let x3 := fmul (fadd DA CB) (fadd DA CB) in
  let z3 := fmul x1 (fmul (fsub DA CB) (fsub DA CB)) in
  let x2 := fmul AA BB in
  let z2 := fmul E (fadd AA (fmul a24 E)) in
  (x2, z2, x3, z3, kt).

Definition x25519 (k u : bytes) : bytes :=
  let kk := decode_scalar k in
  let x1 := decode_u u in
  let '(x2, z2, x3, z3, swap) :=
    fold_left (ladder_step kk x1) (rev (seq 0 255))
      (1%bigZ, 0%bigZ, x1, 1%bigZ, false) in
  let '(x2, _) := cswap swap x2 x3 in
  let '(z2, _) := cswap swap z2 z3 in
  le_bytes 32 (BigZ.to_Z (fmul x2 (finv z2))).

Definition basepoint : bytes := x09 :: repeat x00 31.

(** What the glue uses of a key-exchange module: the private-key class
    ([generate], [public_key().public_bytes(Raw, Raw)], [exchange]) and
    the public-key class ([from_public_bytes]).  A private key is its raw
    scalar, a public key its raw bytes.  [generate] takes the bytes drawn
    from the system's random source. *)
Record Curve : Type := {
  generate : bytes -> bytes;
  public_bytes : bytes -> bytes;
  from_public_bytes : bytes -> result bytes;
  exchange : bytes -> bytes -> result bytes
}.

Definition all_zero (bs : bytes) : bool :=
  forallb (fun x => Byte.eqb x x00) bs.

(** [X25519PrivateKey] and [X25519PublicKey]: a public key is 32 bytes
    long; an exchange whose result is all zero is an error. *)
Definition X25519 : Curve := {|
  generate := fun rnd => rnd;
  public_bytes := fun sk => x25519 sk basepoint;
  from_public_bytes := fun data =>
    if (List.length data =? 32)%nat then Ok data else Raise ValueError;
  exchange := fun sk pk =>
    let s := x25519 sk pk in
    if all_zero s then Raise ValueError else Ok s
|}.

(** [import_module('cryptography.hazmat.primitives.asymmetric.' + name)]:
    the key classes of the module, by name, for the default module
    [x25519].  The package has further modules (x448, ed25519, ed448, ec,
    ...); every other name is left undescribed. *)
Definition import_module (name : string) : result (list (string * Curve)) :=
  if String.eqb name "x25519"
  then Ok [("X25519PrivateKey"%string, X25519);
           ("X25519PublicKey"%string, X25519)]
  else Raise Unmodelled.

Fixpoint getattr (m : list (string * Curve)) (name : string)
  : result Curve :=
  match m with
  | [] => Raise AttributeError
  | (n, c) :: r => if String.eqb n name then Ok c else getattr r name
  end.

End Asymmetric.

(** ** States of the ladder, and public keys that differ in the bit that
    is not read *)

Module Ladder.

Import Asymmetric.

(** Ladder states whose two denominators are zero: what the ladder is left
    with once it has met the point of order two. *)
Definition zero_denominators (st : ladder_state) : Prop :=
  let '(x2, z2, x3, z3, swap) := st in
  BigZ.to_Z z2 = 0 /\ BigZ.to_Z z3 = 0.

End Ladder.

Module TopBit.

(** The same 32 bytes with the top bit of the last one inverted. *)
Definition flip_top_bit (u : bytes) : bytes :=
  firstn 31 u ++ [byte_xor x80 (last u x00)].

End TopBit.

(** ** [lib/LibTACrypto.py] *)

Module LibTACrypto.

Import Hashes Primitives Asymmetric.

Definition lower_char (a : ascii) : ascii :=
  let n := N_of_ascii a in
  if (65 <=? n)%N && (n <=? 90)%N then ascii_of_N (n + 32) else a.

Definition upper_char (a : ascii) : ascii :=
  let n := N_of_ascii a in
  if (97 <=? n)%N && (n <=? 122)%N then ascii_of_N (n - 32) else a.

(** [name.lower()] and [name.capitalize()] on an ASCII name. *)
Fixpoint lower (s : string) : string :=
  match s with
  | EmptyString => EmptyString
  | String a r => String (lower_char a) (lower r)
  end.

Definition capitalize (s : string) : string :=
  match s with
  | EmptyString => EmptyString
  | String a r => String (upper_char a) (lower r)
  end.

(** *** [class PreSharedKey] *)

Module PreSharedKey.

(** The attributes of an instance.  [PSK] is the class attribute [None]
    until [generate] assigns it on the instance. *)
Record self : Type := {
  _ECPrivateKey : Curve;
  _ECPublicKey : Curve;
  _pvtKey : bytes;
  _baseEncode : bytes -> bytes;
  _baseDecode : object -> result bytes;
  _algorithm : HashAlgorithm;
  PSK : option str
}.

(** [__init__(self, curve='x25519', base='b64', algorithm='SHA256')];
    [rnd] is what the key generator draws from the random source. *)
Definition __init__ (rnd : bytes) (curve base algorithm : string)
  : result self :=
  mod_ <- import_module (lower curve) ;;
  priv <- Asymmetric.getattr mod_ (capitalize curve ++ "PrivateKey") ;;
  pub <- Asymmetric.getattr mod_ (capitalize curve ++ "PublicKey") ;;
  let pvtKey := generate priv rnd in
  enc <- Base64.getattr_encode (base ++ "encode") ;;
  dec <- Base64.getattr_decode (base ++ "decode") ;;
  alg <- Hashes.getattr algorithm ;;
  Ok {| _ECPrivateKey := priv; _ECPublicKey := pub; _pvtKey := pvtKey;
        _baseEncode := enc; _baseDecode := dec; _algorithm := alg;
        PSK := None |}.

(** [exportPubKey(self)]: the value returned and the instance after the
    call. *)
Definition exportPubKey (s : self) : str * self :=
  let bytesPubKey := public_bytes (_ECPrivateKey s) (_pvtKey s) in
  let encodedPubKey := _baseEncode s bytesPubKey in
  (Urllib.quote_from_bytes encodedPubKey, s).

(** The value [generate] computes before it assigns it. *)
Definition derive (s : self) (user recipientPubKey : str) : result str :=
  encodedPubKey <- Urllib.unquote_to_bytes recipientPubKey ;;
  raw <- _baseDecode s (PyBytes encodedPubKey) ;;
  bytesPubKey <- from_public_bytes (_ECPublicKey s) raw ;;
  sharedKey <- exchange (_ECPrivateKey s) (_pvtKey s) bytesPubKey ;;
  info <- Codecs.str_encode user ;;
  derivedPSK <- hkdf_derive (_algorithm s) 20 info sharedKey ;;
  Codecs.bytes_decode (_baseEncode s derivedPSK).

Definition set_PSK (s : self) (v : str) : self :=
  {| _ECPrivateKey := _ECPrivateKey s; _ECPublicKey := _ECPublicKey s;
     _pvtKey := _pvtKey s; _baseEncode := _baseEncode s;
     _baseDecode := _baseDecode s; _algorithm := _algorithm s;
     PSK := Some v |}.

(** [generate(self, user, recipientPubKey)]: the outcome and the instance
    after the call; [self.PSK] is assigned last, so an exception leaves
    the instance as it was. *)
Definition generate (s : self) (user recipientPubKey : str)
  : result str * self :=
  match derive s user recipientPubKey with
  | Ok psk => (Ok psk, set_PSK s psk)
  | Raise e => (Raise e, s)
  end.

End PreSharedKey.

(** *** [class HashText] *)

Module HashText.

Record self : Type := {
  _baseEncode : bytes -> bytes;
  _baseDecode : object -> result bytes;
  _algorithm : HashAlgorithm;
  plaintext : bytes
}.

(** [__init__(self, plaintext, base='b64', algorithm='SHA256')] *)
Definition __init__ (plaintext : str) (base algorithm : string)
  : result self :=
  enc <- Base64.getattr_encode (base ++ "encode") ;;
  dec <- Base64.getattr_decode (base ++ "decode") ;;
  alg <- Hashes.getattr algorithm ;;
  p <- Codecs.str_encode plaintext ;;
  Ok {| _baseEncode := enc; _baseDecode := dec; _algorithm := alg;
        plaintext := p |}.

Definition getHash (s : self) : bytes :=
  let hashBytes := digest (_algorithm s) (plaintext s) in
  _baseEncode s hashBytes.

(** [isSame(self, hashStr)]: [==] on two [bytes] values. *)
Definition isSame (s : self) (hashStr : str) : result bool :=
  x <- Codecs.str_encode hashStr ;;
  Ok (bytes_eqb (getHash s) x).

End HashText.

(** *** [getHotp] *)

(** [getHotp(preSharedKey, count, base='b64', algorithm='SHA256',
    length=6)].  The value is what [HOTP.generate] returns, a [bytes]
    object. *)
Definition getHotp (preSharedKey : str) (count : Z)
  (base algorithm : string) (length : Z) : result object :=
  _baseDecode <- Base64.getattr_decode (base ++ "decode") ;;
  _algorithm <- Hashes.getattr algorithm ;;
  bytesPSK <- _baseDecode (PyStr preSharedKey) ;;
  fmap PyBytes (hotp_generate bytesPSK length _algorithm count).

End LibTACrypto.

(** ** Test vectors: the two key pairs of RFC 7748, section 6.1, and the
    instances built on them with the default arguments *)

Module Vectors.

Import LibTACrypto.

Definition alice_private : bytes :=
  Eval vm_compute in
  fromhex "77076d0a7318a57d3c16c17251b26645df4c2f87ebc0992ab177fba51db92c2a".
Definition alice_public : bytes :=
  Eval vm_compute in
  fromhex "8520f0098930a754748b7ddcb43ef75a0dbf3a0d26381af4eba4a98eaa9b4e6a".
Definition bob_private : bytes :=
  Eval vm_compute in
  fromhex "5dab087e624a8a4b79e17f8b83800ee66f3bb1292618b6fd1c2f8b27ff88e0eb".
Definition bob_public : bytes :=
  Eval vm_compute in
  fromhex "de9edb7d7b7dc1b4d35b61c2ece435373f8343c85b78674dadfc7e146f882b4f".
Definition shared_secret : bytes :=
  Eval vm_compute in
  fromhex "4a5d9d5ba4ce2de1728e3bf480350f25e07e21c947d19e3376f09b3c1e161742".

(** [PreSharedKey()] when the key generator draws [rnd]. *)
Definition instance (rnd : bytes) : PreSharedKey.self :=
  {| PreSharedKey._ECPrivateKey := Asymmetric.X25519;
     PreSharedKey._ECPublicKey := Asymmetric.X25519;
     PreSharedKey._pvtKey := rnd;
     PreSharedKey._baseEncode := Base64.b64encode;
     PreSharedKey._baseDecode := Base64.b64decode;
     PreSharedKey._algorithm := Hashes.SHA256;
     PreSharedKey.PSK := None |}.

Definition alice : PreSharedKey.self := instance alice_private.
Definition bob : PreSharedKey.self := instance bob_private.



(** The key of the RFC 4226 test vectors, as [getHotp] takes it. *)
Definition rfc4226_key : str := s_ "MTIzNDU2Nzg5MDEyMzQ1Njc4OTA=".

End Vectors.

(** ** [HashText] objects with the default base *)

Module TextVectors.

(** [HashText('abc')] *)
Definition abc : LibTACrypto.HashText.self :=
  {| LibTACrypto.HashText._baseEncode := Base64.b64encode;
     LibTACrypto.HashText._baseDecode := Base64.b64decode;
     LibTACrypto.HashText._algorithm := Hashes.SHA256;
     LibTACrypto.HashText.plaintext := b_ "abc" |}.

(** [HashText('abd')] *)
Definition abd : LibTACrypto.HashText.self :=
  {| LibTACrypto.HashText._baseEncode := Base64.b64encode;
     LibTACrypto.HashText._baseDecode := Base64.b64decode;
     LibTACrypto.HashText._algorithm := Hashes.SHA256;
     LibTACrypto.HashText.plaintext := b_ "abd" |}.

(** [HashText('abc', algorithm='SHA1')] *)
Definition abc_sha1 : LibTACrypto.HashText.self :=
  {| LibTACrypto.HashText._baseEncode := Base64.b64encode;
     LibTACrypto.HashText._baseDecode := Base64.b64decode;
     LibTACrypto.HashText._algorithm := Hashes.SHA1;
     LibTACrypto.HashText.plaintext := b_ "abc" |}.

End TextVectors.

(** * Properties *)

(** ** Bytes and results *)

Lemma byte_of_to_N (x : byte) : Codecs.byte_of_N (Byte.to_N x) = x.
Proof. unfold Codecs.byte_of_N. now rewrite Byte.of_to_N. Qed.

Lemma to_N_lt_256 (x : byte) : (Byte.to_N x < 256)%N.
Proof. pose proof (Byte.to_N_bounded x). lia. Qed.

Lemma fmap_Ok {A B : Type} (f : A -> B) (r : result A) (y : B) :
  fmap f r = Ok y -> exists x, r = Ok x /\ y = f x.
Proof.
  destruct r as [a|e]; simpl; intros H; [|discriminate].
  injection H as <-. now exists a.
Qed.

Lemma Ok_inj {A : Type} (x y : A) : Ok x = Ok y -> x = y.
Proof. congruence. Qed.

Lemma bind_Ok {A B : Type} (r : result A) (k : A -> result B) (y : B) :
  bind r k = Ok y -> exists x, r = Ok x /\ k x = Ok y.
Proof.
  destruct r as [a|e]; simpl; intros H; [|discriminate]. now exists a.
Qed.

Lemma bytes_eqb_eq (x y : bytes) : bytes_eqb x y = true <-> x = y.
Proof.
  unfold bytes_eqb. destruct (list_eq_dec Byte.byte_eq_dec x y); split;
    intros; congruence.
Qed.

(** Induction over a list three elements at a time. *)
Lemma list_ind3 {A : Type} (P : list A -> Prop) :
  P [] -> (forall x, P [x]) -> (forall x y, P [x; y]) ->
  (forall x y z r, P r -> P (x :: y :: z :: r)) ->
  forall l, P l.
Proof.
  intros H0 H1 H2 H3 l.
  assert (H : P l /\ (forall x, P (x :: l)) /\ (forall x y, P (x :: y :: l))).
  { induction l as [|a l (IH0 & IH1 & IH2)]; [now auto|].
    repeat split; [apply IH1 | intros; apply IH2 | intros; now apply H3]. }
  apply H.
Qed.

(** ** The base64 family *)

Module Base64Facts.

Import Base64.
Local Open Scope N_scope.

(** The two tables are inverse of each other on sextets, and no sextet is
    written as the pad character. *)
Lemma table_a2b_b2a (n : N) :
  n < 64 ->
  table_a2b (table_b2a n) = Some n
  /\ Byte.eqb (table_b2a n) BASE64_PAD = false.
Proof.
  intros H. destruct n as [|p]; [now split|].
  do 6 (try (destruct p as [p|p|]; try (exfalso; lia))); now split.
Qed.

(** What the decoding loop does with one alphabet character. *)
Lemma a2b_loop_sextet (n : N) (rest : bytes) (q : nat) (lc : N) (pads : nat) :
  n < 64 ->
  a2b_loop (table_b2a n :: rest) q lc pads =
  match q with
  | 0%nat => a2b_loop rest 1 n 0
  | 1%nat => fmap (cons (Codecs.byte_of_N (lc * 4 + n / 16)))
               (a2b_loop rest 2 (n mod 16) 0)
  | 2%nat => fmap (cons (Codecs.byte_of_N (lc * 16 + n / 4)))
               (a2b_loop rest 3 (n mod 4) 0)
  | _ => fmap (cons (Codecs.byte_of_N (lc * 64 + n)))
           (a2b_loop rest 0 0 0)
  end.
Proof.
  intros H. destruct (table_a2b_b2a n H) as [Ha Hp].
  cbn [a2b_loop]. now rewrite Hp, Ha.
Qed.

(** Sextets of a group of octets, and the octets read back from them. *)

Lemma div_lt_256 (a d q : N) : a < 256 -> 256 <= d * q -> a / d < q.
Proof. intros Ha Hd. apply N.Div0.div_lt_upper_bound. lia. Qed.

Lemma sextet1 (a : N) : a < 256 -> a / 4 < 64.
Proof. intros Ha. apply (div_lt_256 a 4 64); lia. Qed.

Lemma sextet2 (a b : N) : b < 256 -> (a mod 4) * 16 + b / 16 < 64.
Proof.
  intros Hb. pose proof (N.mod_upper_bound a 4).
  pose proof (div_lt_256 b 16 16 Hb). lia.
Qed.

Lemma sextet3 (b c : N) : c < 256 -> (b mod 16) * 4 + c / 64 < 64.
Proof.
  intros Hc. pose proof (N.mod_upper_bound b 16).
  pose proof (div_lt_256 c 64 4 Hc). lia.
Qed.

Lemma sextet4 (c : N) : c mod 64 < 64.
Proof. apply N.mod_upper_bound. lia. Qed.

Lemma sextet2_last (a : N) : (a mod 4) * 16 < 64.
Proof. pose proof (N.mod_upper_bound a 4). lia. Qed.

Lemma sextet3_last (b : N) : (b mod 16) * 4 < 64.
Proof. pose proof (N.mod_upper_bound b 16). lia. Qed.

Lemma octet1 (a b : N) :
  b < 256 -> a / 4 * 4 + ((a mod 4) * 16 + b / 16) / 16 = a.
Proof.
  intros Hb. pose proof (div_lt_256 b 16 16 Hb).
  rewrite N.div_add_l by lia. rewrite (N.div_small (b / 16)) by lia.
  pose proof (N.div_mod a 4). lia.
Qed.

Lemma octet2 (a b c : N) :
  b < 256 -> c < 256 ->
  ((a mod 4) * 16 + b / 16) mod 16 * 16 + ((b mod 16) * 4 + c / 64) / 4 = b.
Proof.
  intros Hb Hc. pose proof (div_lt_256 b 16 16 Hb).
  pose proof (div_lt_256 c 64 4 Hc).
  rewrite (N.add_comm (a mod 4 * 16)), N.Div0.mod_add,
    (N.mod_small (b / 16)) by lia.
  rewrite N.div_add_l by lia. rewrite (N.div_small (c / 64)) by lia.
  pose proof (N.div_mod b 16). lia.
Qed.

Lemma octet3 (b c : N) :
  c < 256 -> ((b mod 16) * 4 + c / 64) mod 4 * 64 + c mod 64 = c.
Proof.
  intros Hc. pose proof (div_lt_256 c 64 4 Hc).
  rewrite (N.add_comm (b mod 16 * 4)), N.Div0.mod_add,
    (N.mod_small (c / 64)) by lia.
  pose proof (N.div_mod c 64). lia.
Qed.

Lemma octet1_last (a : N) : a / 4 * 4 + ((a mod 4) * 16) / 16 = a.
Proof. rewrite N.div_mul by lia. pose proof (N.div_mod a 4). lia. Qed.

Lemma octet2_last (a b : N) :
  b < 256 ->
  ((a mod 4) * 16 + b / 16) mod 16 * 16 + ((b mod 16) * 4) / 4 = b.
Proof.
  intros Hb. pose proof (div_lt_256 b 16 16 Hb).
  rewrite (N.add_comm (a mod 4 * 16)), N.Div0.mod_add,
    (N.mod_small (b / 16)) by lia.
  rewrite N.div_mul by lia. pose proof (N.div_mod b 16). lia.
Qed.

Ltac sextet :=
  first [ apply sextet1 | apply sextet2 | apply sextet3 | apply sextet4
        | apply sextet2_last | apply sextet3_last ];
  try apply to_N_lt_256.

(** Decoding what the encoder wrote gives the bytes back. *)
Lemma a2b_b2a (bs : bytes) : a2b_loop (b2a_base64 bs) 0 0 0 = Ok bs.
Proof.
  induction bs as [|x|x y|x y z r IH] using list_ind3.
  - reflexivity.
  - cbn [b2a_base64].
    rewrite !a2b_loop_sextet by sextet.
    rewrite octet1_last, byte_of_to_N. reflexivity.
  - cbn [b2a_base64].
    rewrite !a2b_loop_sextet by sextet.
    rewrite octet1, octet2_last, !byte_of_to_N by apply to_N_lt_256.
    reflexivity.
  - cbn [b2a_base64].
    rewrite !a2b_loop_sextet by sextet.
    rewrite octet1, octet2, octet3, !byte_of_to_N, IH by apply to_N_lt_256.
    reflexivity.
Qed.

(** Every character the encoder writes is ASCII, and is neither [-] nor
    [_], so that the URL-safe translation can be undone. *)
Lemma table_b2a_plain (n : N) : n < 64 -> plain_char (table_b2a n) = true.
Proof.
  intros H. destruct n as [|p]; [reflexivity|].
  do 6 (try (destruct p as [p|p|]; try (exfalso; lia))); reflexivity.
Qed.

Lemma b2a_plain (bs : bytes) : forallb plain_char (b2a_base64 bs) = true.
Proof.
  induction bs as [|x|x y|x y z r IH] using list_ind3;
    cbn [b2a_base64 forallb]; rewrite ?IH, ?table_b2a_plain by sextet;
    reflexivity.
Qed.

Lemma translate2_back (s : bytes) :
  forallb plain_char s = true ->
  translate2 "-" "+" "_" "/" (translate2 "+" "-" "/" "_" s) = s.
Proof.
  unfold translate2. rewrite map_map. intros H.
  rewrite <- (map_id s) at 2. apply map_ext_in. intros x Hx.
  rewrite forallb_forall in H. specialize (H x Hx). revert H.
  destruct x; (reflexivity || discriminate).
Qed.

Lemma translate2_ascii (s : bytes) :
  forallb is_ascii s = true ->
  forallb is_ascii (translate2 "+" "-" "/" "_" s) = true.
Proof.
  unfold translate2. rewrite !forallb_forall. intros H x Hx.
  apply in_map_iff in Hx as (y & <- & Hy). specialize (H y Hy). revert H.
  destruct (Byte.eqb y "+"); [reflexivity|].
  destruct (Byte.eqb y "/"); [reflexivity|]. auto.
Qed.

Lemma plain_ascii (s : bytes) :
  forallb plain_char s = true -> forallb is_ascii s = true.
Proof.
  rewrite !forallb_forall. intros H x Hx. specialize (H x Hx).
  unfold plain_char in H. now destruct (is_ascii x).
Qed.

(** ASCII text is the same sequence as [str] and as [bytes]. *)
Lemma ascii_encode_ascii (s : bytes) :
  forallb is_ascii s = true ->
  Codecs.ascii_encode (map Byte.to_N s) = Ok s.
Proof.
  induction s as [|x s IH]; [reflexivity|]. cbn [forallb map]. intros H.
  apply andb_prop in H as [Hx Hs]. cbn [Codecs.ascii_encode].
  unfold is_ascii in Hx. rewrite Hx, IH, byte_of_to_N by assumption.
  reflexivity.
Qed.

Lemma str_encode_ascii (s : bytes) :
  forallb is_ascii s = true ->
  Codecs.str_encode (map Byte.to_N s) = Ok s.
Proof.
  induction s as [|x s IH]; [reflexivity|]. cbn [forallb map]. intros H.
  apply andb_prop in H as [Hx Hs]. cbn [Codecs.str_encode].
  unfold Codecs.utf8_char. unfold is_ascii in Hx.
  rewrite Hx, IH, byte_of_to_N by assumption. reflexivity.
Qed.

Lemma bytes_decode_ascii (s : bytes) :
  forallb is_ascii s = true ->
  Codecs.bytes_decode s = Ok (map Byte.to_N s).
Proof.
  induction s as [|x s IH]; [reflexivity|]. cbn [forallb map]. intros H.
  apply andb_prop in H as [Hx Hs]. cbn [Codecs.bytes_decode].
  unfold is_ascii in Hx. rewrite Hx, IH by assumption. reflexivity.
Qed.

Lemma b64_codec_ok : codec_ok b64encode b64decode.
Proof.
  repeat split.
  - intros b. apply a2b_b2a.
  - intros b. apply plain_ascii, b2a_plain.
  - intros s H. unfold b64decode, bytes_from_decode_data.
    now rewrite ascii_encode_ascii.
Qed.

Lemma urlsafe_b64_codec_ok : codec_ok urlsafe_b64encode urlsafe_b64decode.
Proof.
  repeat split.
  - intros b. unfold urlsafe_b64decode, urlsafe_b64encode, b64encode.
    cbn [bytes_from_decode_data bind].
    rewrite translate2_back by apply b2a_plain. apply a2b_b2a.
  - intros b. apply translate2_ascii, plain_ascii, b2a_plain.
  - intros s H. unfold urlsafe_b64decode, bytes_from_decode_data.
    now rewrite ascii_encode_ascii.
Qed.

(** Names: [base + 'encode'] and [base + 'decode'] name the two halves
    of one codec. *)
Lemma list_ascii_of_string_app (a b : string) :
  list_ascii_of_string (a ++ b) =
  (list_ascii_of_string a ++ list_ascii_of_string b)%list.
Proof. induction a as [|c a IH]; cbn; [reflexivity | now rewrite IH]. Qed.

Lemma append_inv_tail (a b t : string) :
  (a ++ t)%string = (b ++ t)%string -> a = b.
Proof.
  intros H. apply (f_equal list_ascii_of_string) in H.
  rewrite !list_ascii_of_string_app in H. apply app_inv_tail in H.
  rewrite <- (string_of_list_ascii_of_string a),
          <- (string_of_list_ascii_of_string b). now f_equal.
Qed.

Lemma getattr_codec_ok (base : string) enc dec :
  getattr_encode (base ++ "encode") = Ok enc ->
  getattr_decode (base ++ "decode") = Ok dec ->
  codec_ok enc dec.
Proof.
  unfold getattr_encode. intros He Hd.
  destruct (String.eqb_spec (base ++ "encode") "b64encode") as [E|_].
  { apply (append_inv_tail base "b64" "encode") in E. subst base.
    injection He as <-. injection Hd as <-. apply b64_codec_ok. }
  destruct (String.eqb_spec (base ++ "encode") "standard_b64encode") as [E|_].
  { apply (append_inv_tail base "standard_b64" "encode") in E. subst base.
    injection He as <-. injection Hd as <-. apply b64_codec_ok. }
  destruct (String.eqb_spec (base ++ "encode") "urlsafe_b64encode") as [E|_].
  { apply (append_inv_tail base "urlsafe_b64" "encode") in E. subst base.
    injection He as <-. injection Hd as <-. apply urlsafe_b64_codec_ok. }
  discriminate.
Qed.

(** The decoder skips what is not in the alphabet. *)
Lemma a2b_loop_skip (c : byte) (s2 : bytes) :
  table_a2b c = None -> Byte.eqb c BASE64_PAD = false ->
  forall s1 q lc pads,
    a2b_loop (s1 ++ c :: s2) q lc pads = a2b_loop (s1 ++ s2) q lc pads.
Proof.
  intros Hc Hp. induction s1 as [|x s1 IH]; intros q lc pads.
  - cbn [app a2b_loop]. now rewrite Hp, Hc.
  - cbn [app a2b_loop].
    destruct (Byte.eqb x BASE64_PAD).
    + destruct (2 <=? q)%nat; [|apply IH].
      destruct (4 <=? q + S pads)%nat; [reflexivity | apply IH].
    + destruct (table_a2b x) as [v|]; [|apply IH].
      destruct q as [|[|[|q]]]; rewrite ?IH; reflexivity.
Qed.

Lemma a2b_loop_sextets (s : bytes) :
  forallb is_sextet_char s = true ->
  forall q lc pads,
    match a2b_loop s q lc pads with
    | Ok _ => Nat.iter (List.length s) next_pos q = 0%nat
    | Raise e => e = BinasciiError
                 /\ Nat.iter (List.length s) next_pos q <> 0%nat
    end.
Proof.
  induction s as [|x s IH]; intros H q lc pads.
  - cbn. destruct q; [reflexivity | split; [reflexivity | discriminate]].
  - cbn [forallb] in H. apply andb_prop in H as [Hx Hs].
    unfold is_sextet_char in Hx. cbn [a2b_loop List.length].
    destruct (table_a2b x) as [v|]; [|discriminate].
    apply negb_true_iff in Hx. rewrite Hx.
    rewrite Nat.iter_succ_r.
    destruct q as [|[|[|q]]]; cbn [next_pos].
    + apply IH, Hs.
    + specialize (IH Hs 2%nat (v mod 16) 0%nat).
      destruct (a2b_loop s 2 (v mod 16) 0); exact IH.
    + specialize (IH Hs 3%nat (v mod 4) 0%nat).
      destruct (a2b_loop s 3 (v mod 4) 0); exact IH.
    + specialize (IH Hs 0%nat 0 0%nat).
      destruct (a2b_loop s 0 0 0); exact IH.
Qed.

Lemma iter_next_pos (n : nat) : Nat.iter n next_pos 0%nat = (n mod 4)%nat.
Proof.
  induction n as [|n IH]; [reflexivity|]. rewrite Nat.iter_succ, IH.
  pose proof (Nat.div_mod_eq n 4) as E.
  pose proof (Nat.mod_upper_bound n 4 ltac:(lia)) as B.
  destruct (n mod 4)%nat as [|[|[|[|m]]]]; try lia; cbn [next_pos];
    [ apply Nat.mod_unique with (q := (n / 4)%nat)
    | apply Nat.mod_unique with (q := (n / 4)%nat)
    | apply Nat.mod_unique with (q := (n / 4)%nat)
    | apply Nat.mod_unique with (q := S (n / 4)) ]; lia.
Qed.

(** Alphabet characters alone, with no padding: the decoder returns
    bytes when their number is a multiple of four and raises
    [binascii.Error] otherwise. *)
Lemma a2b_base64_sextets (s : bytes) :
  forallb is_sextet_char s = true ->
  ((List.length s mod 4 = 0)%nat -> exists r, a2b_base64 s = Ok r)
  /\ ((List.length s mod 4 <> 0)%nat -> a2b_base64 s = Raise BinasciiError).
Proof.
  intros H. pose proof (a2b_loop_sextets s H 0%nat 0 0%nat) as L.
  unfold a2b_base64. rewrite iter_next_pos in L.
  destruct (a2b_loop s 0 0 0) as [r|e]; split; intros M.
  - now exists r.
  - contradiction.
  - destruct L as [_ L]. contradiction.
  - destruct L as [-> _]. reflexivity.
Qed.

(** Reading a run of alphabet characters: the octets they complete are
    written, and the loop goes on after them at the position their number
    gives, with no pad counted. *)
Lemma fmap_app_nil (r : result bytes) : fmap (app []) r = r.
Proof. now destruct r. Qed.

Lemma fmap_cons_app (x : byte) (out : bytes) (r : result bytes) :
  fmap (cons x) (fmap (app out) r) = fmap (app (x :: out)) r.
Proof. now destruct r. Qed.

Lemma a2b_loop_prefix (s1 : bytes) :
  forallb is_sextet_char s1 = true ->
  forall q lc pads,
  exists (out : bytes) (lc' : N),
    forall rest,
      a2b_loop (s1 ++ rest) q lc pads
      = fmap (app out)
          (a2b_loop rest (Nat.iter (List.length s1) next_pos q) lc'
             (match s1 with [] => pads | _ => 0%nat end)).
Proof.
  induction s1 as [|x s1 IH]; intros H q lc pads.
  - exists [], lc. intros rest. cbn [app List.length Nat.iter nat_rect].
    now rewrite fmap_app_nil.
  - cbn [forallb] in H. apply andb_prop in H as [Hx Hs].
    unfold is_sextet_char in Hx.
    destruct (table_a2b x) as [v|] eqn:Hv; [|discriminate].
    apply negb_true_iff in Hx.
    cbn [List.length]. destruct q as [|[|[|q]]].
    + destruct (IH Hs 1%nat v 0%nat) as (out & lc' & E).
      exists out, lc'. intros rest. cbn [app a2b_loop].
      rewrite Hx, Hv, E, Nat.iter_succ_r. cbn [next_pos].
      now destruct s1.
    + destruct (IH Hs 2%nat (v mod 16) 0%nat) as (out & lc' & E).
      exists (Codecs.byte_of_N (lc * 4 + v / 16) :: out), lc'.
      intros rest. cbn [app a2b_loop].
      rewrite Hx, Hv, E, fmap_cons_app, Nat.iter_succ_r. cbn [next_pos].
      now destruct s1.
    + destruct (IH Hs 3%nat (v mod 4) 0%nat) as (out & lc' & E).
      exists (Codecs.byte_of_N (lc * 16 + v / 4) :: out), lc'.
      intros rest. cbn [app a2b_loop].
      rewrite Hx, Hv, E, fmap_cons_app, Nat.iter_succ_r. cbn [next_pos].
      now destruct s1.
    + destruct (IH Hs 0%nat 0 0%nat) as (out & lc' & E).
      exists (Codecs.byte_of_N (lc * 64 + v) :: out), lc'.
      intros rest. cbn [app a2b_loop].
      rewrite Hx, Hv, E, fmap_cons_app, Nat.iter_succ_r. cbn [next_pos].
      now destruct s1.
Qed.

(** The same from the start of the input: the position is the number of
    characters modulo four. *)
Lemma a2b_base64_prefix (s1 : bytes) :
  forallb is_sextet_char s1 = true ->
  exists (out : bytes) (lc' : N),
    forall rest,
      a2b_base64 (s1 ++ rest)
      = fmap (app out)
          (a2b_loop rest (List.length s1 mod 4) lc' 0).
Proof.
  intros H. destruct (a2b_loop_prefix s1 H 0%nat 0 0%nat) as (out & lc' & E).
  exists out, lc'. intros rest. unfold a2b_base64.
  rewrite E, iter_next_pos. now destruct s1.
Qed.

(** The loop raises nothing but [binascii.Error]. *)
Lemma a2b_loop_Raise (s : bytes) (e : exn) :
  forall q lc pads, a2b_loop s q lc pads = Raise e -> e = BinasciiError.
Proof.
  induction s as [|x s IH]; intros q lc pads.
  - cbn [a2b_loop]. destruct q; congruence.
  - cbn [a2b_loop].
    assert (F : forall (y : byte) r,
               fmap (cons y) r = Raise e -> r = Raise e)
      by (intros y [r|e']; cbn; congruence).
    destruct (Byte.eqb x BASE64_PAD).
    + destruct (2 <=? q)%nat; [|apply IH].
      destruct (4 <=? q + S pads)%nat; [discriminate | apply IH].
    + destruct (table_a2b x) as [v|]; [|apply IH].
      destruct q as [|[|[|q]]]; try apply IH;
        intros H; apply F in H; revert H; apply IH.
Qed.

End Base64Facts.

(** ** Percent quoting *)

Module UrllibFacts.

Import Urllib Base64Facts.

Lemma quoter_as_bytes (safe : bytes) (x : byte) :
  quoter safe x = map Byte.to_N (quoter_bytes safe x).
Proof.
  unfold quoter, quoter_bytes, hexdig_upper.
  destruct (mem x (always_safe ++ safe)); reflexivity.
Qed.

Lemma quote_as_bytes (bs : bytes) :
  quote_from_bytes bs = map Byte.to_N (flat_map (quoter_bytes (b_ "/")) bs).
Proof.
  unfold quote_from_bytes. induction bs as [|x bs IH]; [reflexivity|].
  cbn [flat_map]. now rewrite map_app, IH, quoter_as_bytes.
Qed.

Lemma quoter_bytes_ascii (x : byte) :
  forallb Base64.is_ascii (quoter_bytes (b_ "/") x) = true.
Proof. destruct x; reflexivity. Qed.

Lemma quoted_ascii (bs : bytes) :
  forallb Base64.is_ascii (flat_map (quoter_bytes (b_ "/")) bs) = true.
Proof.
  induction bs as [|x bs IH]; [reflexivity|]. cbn [flat_map].
  now rewrite forallb_app, quoter_bytes_ascii, IH.
Qed.

(** The scan reads one quoted byte back, whatever follows it. *)
Lemma unquote_scan_quoter (x : byte) (r : bytes) :
  unquote_scan (quoter_bytes (b_ "/") x ++ r) = x :: unquote_scan r.
Proof. destruct x; reflexivity. Qed.

Lemma unquote_scan_quoted (bs : bytes) :
  unquote_scan (flat_map (quoter_bytes (b_ "/")) bs) = bs.
Proof.
  induction bs as [|x bs IH]; [reflexivity|]. cbn [flat_map].
  now rewrite unquote_scan_quoter, IH.
Qed.

(** Unquoting undoes quoting, for every byte string. *)
Lemma unquote_quote (bs : bytes) :
  unquote_to_bytes (quote_from_bytes bs) = Ok bs.
Proof.
  unfold unquote_to_bytes.
  rewrite quote_as_bytes, str_encode_ascii by apply quoted_ascii.
  cbn [bind]. now rewrite unquote_scan_quoted.
Qed.

End UrllibFacts.

(** ** Digests, HMAC and HKDF: lengths *)

Module PrimitivesFacts.

Import Hashes Primitives.

Lemma be_bytes_length (n : nat) (z : Z) : List.length (be_bytes n z) = n.
Proof.
  revert z. induction n as [|n IH]; intros z; [reflexivity|].
  cbn [be_bytes]. rewrite length_app, IH. cbn. lia.
Qed.

Lemma le_bytes_length (n : nat) (z : Z) : List.length (le_bytes n z) = n.
Proof.
  revert z. induction n as [|n IH]; intros z; [reflexivity|].
  cbn [le_bytes List.length]. now rewrite IH.
Qed.

Lemma serialize_length (wbytes : nat) (st : state8) :
  List.length (serialize wbytes st) = (8 * wbytes)%nat.
Proof.
  destruct st as [[[[[[[a b] c] d] e] f] g] h]. unfold serialize.
  rewrite !length_app, !be_bytes_length. lia.
Qed.

Lemma sha2_length w wbytes K S0 S1 s0 s1 iv (outlen : nat) (m : bytes) :
  (outlen <= 8 * wbytes)%nat ->
  List.length (sha2 w wbytes K S0 S1 s0 s1 iv outlen m) = outlen.
Proof.
  intros H. unfold sha2. rewrite length_firstn, serialize_length. lia.
Qed.

Lemma sha1_length (m : bytes) : List.length (sha1 m) = 20%nat.
Proof.
  unfold sha1.
  destruct (fold_left sha1_compress _ _) as [[[[a b] c] d] e].
  rewrite !length_app, !be_bytes_length. reflexivity.
Qed.

(** A digest has the size its algorithm announces. *)
Lemma digest_length (h : HashAlgorithm) (m : bytes) :
  List.length (digest h m) = digest_size h.
Proof.
  destruct h; cbn [digest digest_size];
    [ apply sha1_length | | | | ];
    apply sha2_length; cbn; lia.
Qed.

Lemma hmac_length (h : HashAlgorithm) (key msg : bytes) :
  List.length (hmac h key msg) = digest_size h.
Proof. apply digest_length. Qed.

Lemma digest_size_ge_20 (h : HashAlgorithm) : (20 <= digest_size h)%nat.
Proof. destruct h; cbn; lia. Qed.

(** The 20-byte derivation of [generate] always succeeds, with one turn of
    the expansion loop. *)
Lemma hkdf_derive_20 (h : HashAlgorithm) (info key : bytes) :
  hkdf_derive h 20 info key =
  Ok (firstn 20
        (hmac h (hmac h (repeat x00 (digest_size h)) key)
              (info ++ [x01]))).
Proof.
  unfold hkdf_derive.
  replace (255 * digest_size h <? 20)%nat with false
    by (symmetry; apply Nat.ltb_ge; pose proof (digest_size_ge_20 h); lia).
  replace (expand_turns h 20) with 1%nat by (destruct h; reflexivity).
  cbn [expand_blocks]. rewrite app_nil_r. reflexivity.
Qed.

Lemma hkdf_derive_20_length (h : HashAlgorithm) (info key d : bytes) :
  hkdf_derive h 20 info key = Ok d -> List.length d = 20%nat.
Proof.
  rewrite hkdf_derive_20. intros E. apply Ok_inj in E. subst d.
  rewrite length_firstn, hmac_length. pose proof (digest_size_ge_20 h). lia.
Qed.

End PrimitivesFacts.

(** ** The key exchange: evaluation on the RFC 7748 vectors *)

Module X25519Facts.

Import Asymmetric Vectors.

(** The field operations are those of the integers modulo
    [2 ^ 255 - 19]. *)
Lemma p25519_value : BigZ.to_Z p25519 = p25519_Z.
Proof. vm_compute. reflexivity. Qed.

Lemma fadd_spec (x y : bigZ) :
  BigZ.to_Z (fadd x y) = (BigZ.to_Z x + BigZ.to_Z y) mod p25519_Z.
Proof.
  unfold fadd. now rewrite BigZ.spec_modulo, BigZ.spec_add, p25519_value.
Qed.

Lemma fsub_spec (x y : bigZ) :
  BigZ.to_Z (fsub x y) = (BigZ.to_Z x - BigZ.to_Z y) mod p25519_Z.
Proof.
  unfold fsub. now rewrite BigZ.spec_modulo, BigZ.spec_sub, p25519_value.
Qed.

Lemma fmul_spec (x y : bigZ) :
  BigZ.to_Z (fmul x y) = (BigZ.to_Z x * BigZ.to_Z y) mod p25519_Z.
Proof.
  unfold fmul. now rewrite BigZ.spec_modulo, BigZ.spec_mul, p25519_value.
Qed.

Lemma alice_public_key : x25519 alice_private basepoint = alice_public.
Proof. vm_cast_no_check (eq_refl alice_public). Qed.

Lemma bob_public_key : x25519 bob_private basepoint = bob_public.
Proof. vm_cast_no_check (eq_refl bob_public). Qed.

Lemma alice_shared : x25519 alice_private bob_public = shared_secret.
Proof. vm_cast_no_check (eq_refl shared_secret). Qed.

Lemma bob_shared : x25519 bob_private alice_public = shared_secret.
Proof. vm_cast_no_check (eq_refl shared_secret). Qed.

Lemma shared_secret_not_zero : all_zero shared_secret = false.
Proof. reflexivity. Qed.

(** Each side of the exchange of RFC 7748 ends with the same secret. *)
Lemma alice_exchange :
  exchange X25519 alice_private (public_bytes X25519 bob_private)
  = Ok shared_secret.
Proof.
  cbn [exchange public_bytes X25519].
  rewrite bob_public_key, alice_shared, shared_secret_not_zero. reflexivity.
Qed.

Lemma bob_exchange :
  exchange X25519 bob_private (public_bytes X25519 alice_private)
  = Ok shared_secret.
Proof.
  cbn [exchange public_bytes X25519].
  rewrite alice_public_key, bob_shared, shared_secret_not_zero. reflexivity.
Qed.

Lemma x25519_length (k u : bytes) : List.length (x25519 k u) = 32%nat.
Proof.
  unfold x25519.
  destruct (fold_left _ _ _) as [[[[x2 z2] x3] z3] swap].
  destruct (cswap swap x2 x3) as [a _]. destruct (cswap swap z2 z3) as [b _].
  apply PrimitivesFacts.le_bytes_length.
Qed.

End X25519Facts.

(** ** [PreSharedKey] *)

Module PreSharedKeyFacts.

Import Asymmetric LibTACrypto LibTACrypto.PreSharedKey.
Import Base64Facts UrllibFacts PrimitivesFacts X25519Facts.

(** Every class the modelled curve module defines is an X25519 class. *)
Lemma getattr_X25519 (m : list (string * Curve)) (n name : string) (c : Curve) :
  import_module n = Ok m -> Asymmetric.getattr m name = Ok c -> c = X25519.
Proof.
  unfold import_module. destruct (String.eqb n "x25519"); [|discriminate].
  intros E. apply Ok_inj in E. subst m. cbn [Asymmetric.getattr].
  destruct (String.eqb _ name); [congruence|].
  destruct (String.eqb _ name); [congruence | discriminate].
Qed.

(** What [__init__] leaves in the instance. *)
Lemma init_inv (rnd : bytes) (curve base algorithm : string) (s : self) :
  __init__ rnd curve base algorithm = Ok s ->
  _ECPrivateKey s = X25519 /\ _ECPublicKey s = X25519 /\ _pvtKey s = rnd
  /\ Base64.getattr_encode (base ++ "encode") = Ok (_baseEncode s)
  /\ Base64.getattr_decode (base ++ "decode") = Ok (_baseDecode s)
  /\ Hashes.getattr algorithm = Ok (_algorithm s)
  /\ PSK s = None.
Proof.
  unfold __init__. intros H.
  apply bind_Ok in H as (m & Hm & H).
  apply bind_Ok in H as (priv & Hpriv & H).
  apply bind_Ok in H as (pub & Hpub & H).
  apply bind_Ok in H as (enc & Henc & H).
  apply bind_Ok in H as (dec & Hdec & H).
  apply bind_Ok in H as (alg & Halg & H).
  apply Ok_inj in H. subst s. cbn.
  pose proof (getattr_X25519 _ _ _ _ Hm Hpriv).
  pose proof (getattr_X25519 _ _ _ _ Hm Hpub). subst priv pub.
  repeat split; assumption.
Qed.

Lemma init_codec_ok (rnd : bytes) (curve base algorithm : string) (s : self) :
  __init__ rnd curve base algorithm = Ok s ->
  Base64.codec_ok (_baseEncode s) (_baseDecode s).
Proof.
  intros H. apply init_inv in H as (_ & _ & _ & He & Hd & _).
  exact (getattr_codec_ok base _ _ He Hd).
Qed.

(** The exported key is the quoted encoding of the raw public key, and the
    instance is the same after the call. *)
Lemma exportPubKey_frame (s : self) : snd (exportPubKey s) = s.
Proof. reflexivity. Qed.

(** [generate] returns what [derive] computes; it assigns [PSK] when that
    is a value and nothing when it is an exception. *)
Lemma generate_fst (s : self) (user pk : str) :
  fst (generate s user pk) = derive s user pk.
Proof. unfold generate. now destruct (derive s user pk). Qed.

Lemma generate_snd (s : self) (user pk : str) :
  snd (generate s user pk) =
  match derive s user pk with
  | Ok psk => set_PSK s psk
  | Raise _ => s
  end.
Proof. unfold generate. now destruct (derive s user pk). Qed.


(** Deriving from a key that a peer exported: the transport encoding is
    undone, and what is left is the exchange, the derivation and the
    encoding of the seed. *)
Lemma derive_exported (a b : self) (user : str) :
  _ECPublicKey a = X25519 -> _ECPrivateKey b = X25519 ->
  Base64.codec_ok (_baseEncode b) (_baseDecode a) ->
  derive a user (fst (exportPubKey b)) =
  (sharedKey <- exchange (_ECPrivateKey a) (_pvtKey a)
                  (public_bytes (_ECPrivateKey b) (_pvtKey b)) ;;
   info <- Codecs.str_encode user ;;
   derivedPSK <- Primitives.hkdf_derive (_algorithm a) 20 info sharedKey ;;
   Codecs.bytes_decode (_baseEncode a derivedPSK)).
Proof.
  intros Ha Hb (Hrt & _ & _). unfold derive, exportPubKey. cbn [fst].
  rewrite unquote_quote. cbn [bind]. rewrite Hrt. cbn [bind].
  rewrite Ha, Hb. cbn [from_public_bytes public_bytes X25519].
  rewrite x25519_length. reflexivity.
Qed.

(** With an ASCII encoder the PSK is the encoded seed, read as text. *)
Lemma derive_exported_Ok (a b : self) (user : str) (sharedKey info : bytes) :
  _ECPublicKey a = X25519 -> _ECPrivateKey b = X25519 ->
  Base64.codec_ok (_baseEncode b) (_baseDecode a) ->
  Base64.codec_ok (_baseEncode a) (_baseDecode a) ->
  exchange (_ECPrivateKey a) (_pvtKey a)
    (public_bytes (_ECPrivateKey b) (_pvtKey b)) = Ok sharedKey ->
  Codecs.str_encode user = Ok info ->
  derive a user (fst (exportPubKey b)) =
  Ok (map Byte.to_N
        (_baseEncode a
           (firstn 20
              (Primitives.hmac (_algorithm a)
                 (Primitives.hmac (_algorithm a)
                    (repeat x00 (Hashes.digest_size (_algorithm a)))
                    sharedKey)
                 (info ++ [x01]))))).
Proof.
  intros Ha Hb Hab (_ & Hascii & _) Hx Hu.
  rewrite derive_exported by assumption. rewrite Hx, Hu. cbn [bind].
  rewrite hkdf_derive_20. cbn [bind]. apply bytes_decode_ascii, Hascii.
Qed.

End PreSharedKeyFacts.

(** ** The instances of the test vectors *)

Module VectorFacts.

Import Asymmetric LibTACrypto LibTACrypto.PreSharedKey Vectors.
Import Base64Facts PrimitivesFacts X25519Facts PreSharedKeyFacts.

Lemma alice_init :
  __init__ alice_private "x25519" "b64" "SHA256" = Ok alice.
Proof. reflexivity. Qed.

Lemma bob_init : __init__ bob_private "x25519" "b64" "SHA256" = Ok bob.
Proof. reflexivity. Qed.


(** Alice's seed for an identity, from Bob's exported key. *)
Lemma alice_derive (user : str) (info : bytes) :
  Codecs.str_encode user = Ok info ->
  derive alice user (fst (exportPubKey bob)) =
  Ok (map Byte.to_N
        (Base64.b64encode
           (firstn 20
              (Primitives.hmac Hashes.SHA256
                 (Primitives.hmac Hashes.SHA256 (repeat x00 32) shared_secret)
                 (info ++ [x01]))))).
Proof.
  intros Hu.
  rewrite (derive_exported_Ok alice bob user shared_secret info);
    [reflexivity | reflexivity | reflexivity | apply b64_codec_ok
    | apply b64_codec_ok | apply alice_exchange | exact Hu].
Qed.

Lemma bob_derive (user : str) (info : bytes) :
  Codecs.str_encode user = Ok info ->
  derive bob user (fst (exportPubKey alice)) =
  Ok (map Byte.to_N
        (Base64.b64encode
           (firstn 20
              (Primitives.hmac Hashes.SHA256
                 (Primitives.hmac Hashes.SHA256 (repeat x00 32) shared_secret)
                 (info ++ [x01]))))).
Proof.
  intros Hu.
  rewrite (derive_exported_Ok bob alice user shared_secret info);
    [reflexivity | reflexivity | reflexivity | apply b64_codec_ok
    | apply b64_codec_ok | apply bob_exchange | exact Hu].
Qed.

Lemma alice_psk_for_alice :
  derive alice (s_ "alice") (fst (exportPubKey bob))
  = Ok (s_ "b0DE6zn8mqe2nClXBpu1h32Um9g=").
Proof. rewrite (alice_derive (s_ "alice") (b_ "alice") eq_refl). vm_compute. reflexivity. Qed.


Lemma alice_generate :
  generate alice (s_ "alice") (fst (exportPubKey bob))
  = (Ok (s_ "b0DE6zn8mqe2nClXBpu1h32Um9g="),
     set_PSK alice (s_ "b0DE6zn8mqe2nClXBpu1h32Um9g=")).
Proof. unfold generate. rewrite alice_psk_for_alice. reflexivity. Qed.




End VectorFacts.

(** * The claims about [PreSharedKey] *)

Section PreSharedKeyClaims.

Import Asymmetric LibTACrypto LibTACrypto.PreSharedKey Vectors.
Import Base64Facts PrimitivesFacts X25519Facts PreSharedKeyFacts VectorFacts.




(** C10.  [PSK] is [None] when [__init__] returns, and after a call of
    [generate] that returns a value, on any state of an instance, [PSK]
    holds that value. *)
Theorem generate_sets_PSK (rnd : bytes) (curve base algorithm : string)
  (s0 s s' : self) (user recipientPubKey v : str) :
  __init__ rnd curve base algorithm = Ok s0 ->
  generate s user recipientPubKey = (Ok v, s') ->
  PSK s0 = None /\ PSK s' = Some v.
Proof.
  intros I G. split.
  - now apply init_inv in I.
  - unfold generate in G. destruct (derive s user recipientPubKey) as [x|e].
    + injection G as <- <-. reflexivity.
    + discriminate.
Qed.

Lemma generate_sets_PSK_witness :
  __init__ alice_private "x25519" "b64" "SHA256" = Ok alice
  /\ generate alice (s_ "alice") (fst (exportPubKey bob))
     = (Ok (s_ "b0DE6zn8mqe2nClXBpu1h32Um9g="),
        set_PSK alice (s_ "b0DE6zn8mqe2nClXBpu1h32Um9g="))
  /\ PSK alice = None
  /\ PSK (set_PSK alice (s_ "b0DE6zn8mqe2nClXBpu1h32Um9g="))
     = Some (s_ "b0DE6zn8mqe2nClXBpu1h32Um9g=").
Proof.
  split; [exact alice_init|]. split; [exact alice_generate|].
  exact (generate_sets_PSK alice_private "x25519" "b64" "SHA256"
           alice alice _ (s_ "alice") (fst (exportPubKey bob)) _
           alice_init alice_generate).
Defined.

(** C7, as the code has it.  [exportPubKey] leaves the instance as it was.
    [generate] leaves the key pair, the codec and the algorithm as they
    were, so the exported key is the same after it; it assigns [PSK] when
    it returns a value, and nothing when it raises. *)
Theorem instance_frame (s : self) (user recipientPubKey : str) :
  snd (exportPubKey s) = s
  /\ (let s' := snd (generate s user recipientPubKey) in
      _ECPrivateKey s' = _ECPrivateKey s
      /\ _ECPublicKey s' = _ECPublicKey s
      /\ _pvtKey s' = _pvtKey s
      /\ _baseEncode s' = _baseEncode s
      /\ _baseDecode s' = _baseDecode s
      /\ _algorithm s' = _algorithm s
      /\ fst (exportPubKey s') = fst (exportPubKey s)
      /\ (forall e, fst (generate s user recipientPubKey) = Raise e ->
                    s' = s)).
Proof.
  split; [reflexivity|]. cbv zeta. rewrite generate_snd, generate_fst.
  destruct (derive s user recipientPubKey) as [v|e];
    repeat split; try reflexivity; discriminate.
Qed.

(** C7, as stated, fails: a call of [generate] that returns a value changes
    the attribute [PSK] of the instance. *)
Lemma generate_assigns_PSK :
  __init__ alice_private "x25519" "b64" "SHA256" = Ok alice
  /\ PSK alice = None
  /\ PSK (snd (generate alice (s_ "alice") (fst (exportPubKey bob))))
     = Some (s_ "b0DE6zn8mqe2nClXBpu1h32Um9g=")
  /\ snd (generate alice (s_ "alice") (fst (exportPubKey bob))) <> alice.
Proof.
  rewrite alice_generate. split; [exact alice_init|].
  split; [reflexivity|]. split; [reflexivity | discriminate].
Qed.

End PreSharedKeyClaims.

(** ** HOTP: the shape of the value *)

Module HotpFacts.

Import Hashes Primitives.

Lemma digit_is_digit (v : Z) : is_digit (byte_of_Z (48 + v mod 10)) = true.
Proof.
  pose proof (Z.mod_pos_bound v 10 ltac:(lia)) as B.
  assert (H : v mod 10 = 0 \/ v mod 10 = 1 \/ v mod 10 = 2 \/ v mod 10 = 3
              \/ v mod 10 = 4 \/ v mod 10 = 5 \/ v mod 10 = 6
              \/ v mod 10 = 7 \/ v mod 10 = 8 \/ v mod 10 = 9) by lia.
  repeat (destruct H as [-> | H]; [reflexivity|]). now rewrite H.
Qed.

Lemma decimal_rev_digits (fuel : nat) (v : Z) :
  forallb is_digit (decimal_rev fuel v) = true.
Proof.
  revert v. induction fuel as [|fuel IH]; intros v; [reflexivity|].
  cbn [decimal_rev forallb]. rewrite digit_is_digit.
  destruct (v <? 10); [reflexivity | apply IH].
Qed.

Lemma decimal_rev_length (fuel k : nat) (v : Z) :
  0 <= v < 10 ^ Z.of_nat (S k) ->
  (List.length (decimal_rev fuel v) <= S k)%nat.
Proof.
  revert k v. induction fuel as [|fuel IH]; intros k v Hv; [cbn; lia|].
  cbn [decimal_rev List.length]. destruct (Z.ltb_spec v 10) as [_|Hge].
  - cbn. lia.
  - destruct k as [|k]; [cbn in Hv; lia|].
    apply le_n_S, IH. split; [apply Z.div_pos; lia|].
    apply Z.div_lt_upper_bound; [lia|].
    replace (Z.of_nat (S (S k))) with (Z.succ (Z.of_nat (S k))) in Hv by lia.
    rewrite Z.pow_succ_r in Hv by lia. lia.
Qed.

(** A value below [10 ^ width] is written on exactly [width] decimal
    digits. *)
Lemma format_zero_padded_shape (v : Z) (width : nat) :
  0 <= v < 10 ^ Z.of_nat (S width) ->
  List.length (format_zero_padded v (S width)) = S width
  /\ forallb is_digit (format_zero_padded v (S width)) = true.
Proof.
  intros Hv. unfold format_zero_padded, decimal.
  pose proof (decimal_rev_length (S (Z.to_nat (Z.log2 v))) width v Hv) as L.
  split.
  - rewrite length_app, repeat_length, length_rev. lia.
  - rewrite forallb_app. apply andb_true_intro.
    split; apply forallb_forall; intros x Hx.
    + apply repeat_spec in Hx. now subst x.
    + apply in_rev in Hx.
      pose proof (decimal_rev_digits (S (Z.to_nat (Z.log2 v))) v) as D.
      rewrite forallb_forall in D. now apply D.
Qed.

(** Whenever [HOTP.generate] returns, it returns [length] decimal
    digits. *)
Lemma hotp_generate_shape (key : bytes) (length : Z) (h : HashAlgorithm)
  (counter : Z) (otp : bytes) :
  hotp_generate key length h counter = Ok otp ->
  List.length otp = Z.to_nat length /\ forallb is_digit otp = true.
Proof.
  unfold hotp_generate.
  destruct (List.length key <? 16)%nat; [discriminate|].
  destruct (Z.ltb_spec length 6) as [|H6]; [discriminate|].
  destruct (Z.ltb_spec 8 length) as [|H8]; [discriminate|]. cbn [orb].
  assert (E : Z.to_nat length = S (Z.to_nat (length - 1))) by lia.
  assert (B : forall t, 0 <= t mod 10 ^ length
                          < 10 ^ Z.of_nat (S (Z.to_nat (length - 1)))).
  { intros t. replace (Z.of_nat (S (Z.to_nat (length - 1)))) with length by lia.
    apply Z.mod_pos_bound. apply Z.pow_pos_nonneg; lia. }
  destruct h; try discriminate;
    (destruct (dynamic_truncate _ key counter) as [t|e]; [|discriminate]);
    cbn [bind]; intros H; apply Ok_inj in H; subst otp; rewrite E;
    apply format_zero_padded_shape, B.
Qed.

End HotpFacts.

(** * The claims about the codec and [getHotp] *)

Section CodecClaims.

Import LibTACrypto Vectors Base64 Base64Facts HotpFacts.




(** C6, as stated, fails: with the default base a byte outside the
    alphabet and a surplus pad character are skipped, on the [str] that
    [getHotp] decodes and on the [bytes] that [generate] decodes. *)
Lemma decode_accepts_foreign_characters :
  b64decode (PyStr (s_ "MTIzNDU2 Nzg5MDEyMzQ1Njc4OTA="))
  = Ok (b_ "12345678901234567890")
  /\ getHotp (s_ "MTIzNDU2 Nzg5MDEyMzQ1Njc4OTA=") 0 "b64" "SHA256" 6
     = getHotp rfc4226_key 0 "b64" "SHA256" 6
  /\ b64decode (PyBytes (b_ "MTIz*")) = Ok (b_ "123")
  /\ b64decode (PyBytes (b_ "MTIz=")) = Ok (b_ "123").
Proof. vm_compute. repeat split. Qed.

Lemma ascii_encode_non_ascii (t : str) :
  (exists c, In c t /\ (128 <= c)%N) ->
  exists e, Codecs.ascii_encode t = Raise e.
Proof.
  induction t as [|x t IH]; intros (c & Hin & Hc); [destruct Hin|].
  cbn [Codecs.ascii_encode]. destruct (N.ltb_spec x 128) as [Hx|Hx].
  - destruct Hin as [->|Hin]; [lia|].
    destruct (IH (ex_intro _ c (conj Hin Hc))) as (e & ->). now exists e.
  - now exists UnicodeEncodeError.
Qed.

(** C6, as the code has it, for the default base.
    (a) A byte that is neither in the alphabet nor the pad character is
    skipped wherever it stands.
    (b) After alphabet characters alone, a pad character is skipped when
    the number of those characters is 0 or 1 modulo 4; when it is 3
    modulo 4 the pad ends the decoding, which returns the same bytes
    whatever follows;
    when it is 2 modulo 4 two pads in a row end the decoding in the same
    way, one pad at the end of the input raises [binascii.Error], and one
    pad with an alphabet character behind it is skipped.
    (c) Alphabet characters alone, with no padding, decode when their
    number is a multiple of four and raise [binascii.Error] otherwise.
    (d) On a [bytes] argument no other exception is raised.
    (e) A [str] with a character that is not ASCII raises [ValueError]. *)
Theorem b64decode_errors :
  (forall (c : byte) (s1 s2 : bytes),
      table_a2b c = None -> Byte.eqb c BASE64_PAD = false ->
      b64decode (PyBytes (s1 ++ c :: s2)) = b64decode (PyBytes (s1 ++ s2)))
  /\ (forall s1 : bytes,
         forallb is_sextet_char s1 = true ->
         ((List.length s1 mod 4 < 2)%nat ->
          forall s2,
            b64decode (PyBytes (s1 ++ BASE64_PAD :: s2))
            = b64decode (PyBytes (s1 ++ s2)))
         /\ ((List.length s1 mod 4 = 3)%nat ->
             exists r, forall s2,
               b64decode (PyBytes (s1 ++ BASE64_PAD :: s2)) = Ok r)
         /\ ((List.length s1 mod 4 = 2)%nat ->
             (exists r, forall s2,
                b64decode (PyBytes (s1 ++ BASE64_PAD :: BASE64_PAD :: s2))
                = Ok r)
             /\ b64decode (PyBytes (s1 ++ [BASE64_PAD]))
                = Raise BinasciiError
             /\ (forall c s2,
                    is_sextet_char c = true ->
                    b64decode (PyBytes (s1 ++ BASE64_PAD :: c :: s2))
                    = b64decode (PyBytes (s1 ++ c :: s2)))))
  /\ (forall s : bytes,
         forallb is_sextet_char s = true ->
         ((List.length s mod 4 = 0)%nat ->
          exists r, b64decode (PyBytes s) = Ok r)
         /\ ((List.length s mod 4 <> 0)%nat ->
             b64decode (PyBytes s) = Raise BinasciiError))
  /\ (forall (s : bytes) (e : exn),
         b64decode (PyBytes s) = Raise e -> e = BinasciiError)
  /\ (forall t : str,
         (exists c, In c t /\ (128 <= c)%N) ->
         b64decode (PyStr t) = Raise ValueError).
Proof.
  assert (B : forall s, b64decode (PyBytes s) = a2b_base64 s) by reflexivity.
  split; [|split; [|split; [|split]]].
  - intros c s1 s2 Hc Hp. rewrite !B. unfold a2b_base64.
    now apply a2b_loop_skip.
  - intros s1 H1. destruct (a2b_base64_prefix s1 H1) as (out & lc & E).
    assert (P : Byte.eqb BASE64_PAD BASE64_PAD = true) by reflexivity.
    split; [|split].
    + intros L s2. rewrite !B, !E. cbn [a2b_loop]. rewrite P.
      replace (2 <=? List.length s1 mod 4)%nat with false
        by (symmetry; apply Nat.leb_gt; exact L).
      reflexivity.
    + intros L. exists (out ++ []). intros s2. rewrite B, E, L.
      cbn [a2b_loop]. rewrite P. reflexivity.
    + intros L. split; [|split].
      * exists (out ++ []). intros s2. rewrite B, E, L.
        cbn [a2b_loop]. rewrite P. reflexivity.
      * rewrite B, E, L. cbn [a2b_loop]. rewrite P. reflexivity.
      * intros c s2 Hc. rewrite !B, !E, L. unfold is_sextet_char in Hc.
        destruct (table_a2b c) as [v|] eqn:Hv; [|discriminate].
        apply negb_true_iff in Hc. cbn [a2b_loop].
        rewrite P, Hc, Hv. reflexivity.
  - intros s Hs. rewrite B. now apply a2b_base64_sextets.
  - intros s e. rewrite B. apply a2b_loop_Raise.
  - intros t Ht. unfold b64decode, bytes_from_decode_data.
    destruct (ascii_encode_non_ascii t Ht) as (e & ->). reflexivity.
Qed.

(** C1, as stated, fails: with the default algorithm, SHA256, the value
    for counter 0 is 875740, not the 755224 of RFC 4226. *)
Lemma getHotp_default_not_rfc4226 :
  map Byte.to_N (b64encode (b_ "12345678901234567890")) = rfc4226_key
  /\ fmap chars (getHotp rfc4226_key 0 "b64" "SHA256" 6) = Ok (s_ "875740")
  /\ fmap chars (getHotp rfc4226_key 0 "b64" "SHA256" 6)
     <> Ok (s_ "755224").
Proof. vm_compute. repeat split. discriminate. Qed.

(** C1, as the code has it.  Called with [algorithm='SHA1'], the algorithm
    of RFC 4226, on the base64 form of the key 12345678901234567890 and
    with six digits, [getHotp] gives the ten values of the RFC for the
    counters 0 to 9. *)
Theorem getHotp_rfc4226 :
  map Byte.to_N (b64encode (b_ "12345678901234567890")) = rfc4226_key
  /\ map (fun count => fmap chars (getHotp rfc4226_key count "b64" "SHA1" 6))
         [0; 1; 2; 3; 4; 5; 6; 7; 8; 9]
     = map (fun v => Ok (s_ v))
         ["755224"; "287082"; "359152"; "969429"; "338314";
          "254676"; "287922"; "162583"; "399871"; "520489"]%string.
Proof. vm_compute. split; reflexivity. Qed.

(** C5.  Whenever [getHotp] returns, the value is a [bytes] object, of
    [length] decimal digits; it is never the [str] that the annotation and
    the docstring of the function announce. *)
Theorem getHotp_returns_bytes (preSharedKey : str) (count : Z)
  (base algorithm : string) (length : Z) (o : object) :
  getHotp preSharedKey count base algorithm length = Ok o ->
  exists otp : bytes,
    o = PyBytes otp
    /\ List.length otp = Z.to_nat length
    /\ forallb Primitives.is_digit otp = true.
Proof.
  unfold getHotp. intros H.
  apply bind_Ok in H as (dec & _ & H).
  apply bind_Ok in H as (alg & _ & H).
  apply bind_Ok in H as (key & _ & H).
  apply fmap_Ok in H as (otp & H & ->).
  exists otp. split; [reflexivity|]. now apply hotp_generate_shape in H.
Qed.

Lemma getHotp_returns_bytes_witness :
  getHotp rfc4226_key 0 "b64" "SHA256" 6 = Ok (PyBytes (b_ "875740"))
  /\ exists otp : bytes,
       PyBytes (b_ "875740") = PyBytes otp
       /\ List.length otp = Z.to_nat 6
       /\ forallb Primitives.is_digit otp = true.
Proof.
  assert (H : getHotp rfc4226_key 0 "b64" "SHA256" 6
              = Ok (PyBytes (b_ "875740"))) by (vm_compute; reflexivity).
  split; [exact H|].
  exact (getHotp_returns_bytes rfc4226_key 0 "b64" "SHA256" 6 _ H).
Defined.

End CodecClaims.

(** * The claims about the identity bound into the seed *)

Section IdentityClaims.

Import Asymmetric LibTACrypto LibTACrypto.PreSharedKey Vectors.
Import Base64Facts PrimitivesFacts X25519Facts PreSharedKeyFacts VectorFacts.


Lemma codec_encode_inj enc dec (x y : bytes) :
  Base64.codec_ok enc dec -> enc x = enc y -> x = y.
Proof.
  intros (H & _) E. apply Ok_inj. rewrite <- (H x), <- (H y). now rewrite E.
Qed.




End IdentityClaims.

(** * [HashText] *)

Section HashTextFacts.

Import LibTACrypto LibTACrypto.HashText Base64Facts.

Lemma HashText_init_inv (text : str) (base algorithm : string) (s : self) :
  __init__ text base algorithm = Ok s ->
  Base64.codec_ok (_baseEncode s) (_baseDecode s)
  /\ Hashes.getattr algorithm = Ok (_algorithm s)
  /\ Codecs.str_encode text = Ok (plaintext s).
Proof.
  unfold __init__. intros H.
  apply bind_Ok in H as (enc & He & H).
  apply bind_Ok in H as (dec & Hd & H).
  apply bind_Ok in H as (alg & Ha & H).
  apply bind_Ok in H as (p & Hp & H).
  apply Ok_inj in H. subst s. cbn.
  split; [exact (getattr_codec_ok base _ _ He Hd) | now split].
Qed.

(** A plaintext that can be encoded agrees with its own digest, read as
    text. *)
Lemma isSame_getHash (text : str) (base algorithm : string) (s : self) :
  __init__ text base algorithm = Ok s ->
  Codecs.bytes_decode (getHash s) = Ok (map Byte.to_N (getHash s))
  /\ isSame s (map Byte.to_N (getHash s)) = Ok true.
Proof.
  intros I. apply HashText_init_inv in I as ((_ & Hascii & _) & _ & _).
  assert (A : forallb Base64.is_ascii (getHash s) = true) by apply Hascii.
  split; [now apply bytes_decode_ascii|].
  unfold isSame. rewrite str_encode_ascii by exact A. cbn [bind].
  f_equal. now apply bytes_eqb_eq.
Qed.

(** Another plaintext agrees with that digest exactly when the two raw
    digests are equal. *)
Lemma isSame_iff_digest (text text' : str) (base algorithm : string)
  (s s' : self) :
  __init__ text base algorithm = Ok s ->
  __init__ text' base algorithm = Ok s' ->
  exists r, isSame s' (map Byte.to_N (getHash s)) = Ok r
            /\ (r = true <->
                Hashes.digest (_algorithm s) (plaintext s')
                = Hashes.digest (_algorithm s) (plaintext s)).
Proof.
  intros I I'. pose proof I as J. pose proof I' as J'.
  apply HashText_init_inv in J as (C & Ha & _).
  apply HashText_init_inv in J' as (C' & Ha' & _).
  unfold __init__ in I, I'.
  apply bind_Ok in I as (enc & He & I). apply bind_Ok in I as (dec & Hd & I).
  apply bind_Ok in I as (alg & Hg & I). apply bind_Ok in I as (p & Hp & I).
  apply bind_Ok in I' as (enc' & He' & I').
  apply bind_Ok in I' as (dec' & Hd' & I').
  apply bind_Ok in I' as (alg' & Hg' & I').
  apply bind_Ok in I' as (p' & Hp' & I').
  apply Ok_inj in I, I'. subst s s'. cbn in *.
  assert (enc' = enc) by congruence. assert (alg' = alg) by congruence.
  subst enc' alg'. destruct C as (Crt & Cascii & Cstr).
  unfold isSame, getHash. cbn.
  rewrite str_encode_ascii by apply Cascii. cbn [bind].
  eexists. split; [reflexivity|]. rewrite bytes_eqb_eq. split.
  - apply (codec_encode_inj enc dec). now repeat split.
  - now intros ->.
Qed.

End HashTextFacts.

(** * Further properties of the library *)

(** ** The exchange with the all-zero point *)

Module ZeroPointFacts.

Import Asymmetric Ladder X25519Facts.

Lemma testbit_decode_scalar (k : bytes) :
  Z.testbit (decode_scalar k) (Z.of_nat 254) = true.
Proof.
  unfold decode_scalar. rewrite Z.lor_spec.
  change (Z.of_nat 254) with 254.
  rewrite (Z.pow2_bits_true 254) by lia. apply orb_true_r.
Qed.

Lemma fmul_zero_l (x y : bigZ) :
  BigZ.to_Z x = 0 -> BigZ.to_Z (fmul x y) = 0.
Proof. intros H. rewrite fmul_spec, H. reflexivity. Qed.

Lemma fmul_zero_r (x y : bigZ) :
  BigZ.to_Z y = 0 -> BigZ.to_Z (fmul x y) = 0.
Proof.
  intros H. rewrite fmul_spec, H, Z.mul_0_r. reflexivity.
Qed.

Lemma fpow_pos_zero (x : bigZ) (e : positive) :
  BigZ.to_Z x = 0 -> BigZ.to_Z (fpow_pos x e) = 0.
Proof.
  intros H. induction e as [e IH|e IH|]; cbn [fpow_pos].
  - now apply fmul_zero_l.
  - now apply fmul_zero_l.
  - rewrite BigZ.spec_modulo, H. reflexivity.
Qed.

Lemma ladder_step_zero (kk : Z) (x1 : bigZ) (st : ladder_state) (t : nat) :
  BigZ.to_Z x1 = 0 -> zero_denominators st -> zero_denominators (ladder_step kk x1 st t).
Proof.
  intros H1. destruct st as [[[[x2 z2] x3] z3] swap]. intros [H2 H3].
  unfold ladder_step.
  assert (E : forall x z, BigZ.to_Z z = 0 ->
            BigZ.to_Z (fsub (fmul (fadd x z) (fadd x z))
                         (fmul (fsub x z) (fsub x z))) = 0).
  { intros x z Hz. rewrite fsub_spec, !fmul_spec, fadd_spec, fsub_spec, Hz.
    rewrite Z.add_0_r, Z.sub_0_r, Z.sub_diag. reflexivity. }
  destruct (xorb swap (Z.testbit kk (Z.of_nat t))); cbn [cswap zero_denominators]; split;
    first [ apply fmul_zero_l, E; assumption | apply fmul_zero_l, H1 ].
Qed.

Lemma ladder_zero (kk : Z) (x1 : bigZ) (l : list nat) (st : ladder_state) :
  BigZ.to_Z x1 = 0 -> zero_denominators st -> zero_denominators (fold_left (ladder_step kk x1) l st).
Proof.
  intros H1. revert st. induction l as [|t l IH]; intros st H; [exact H|].
  cbn [fold_left]. apply IH. now apply ladder_step_zero.
Qed.

Lemma first_step_zero (kk : Z) (x1 : bigZ) :
  BigZ.to_Z x1 = 0 -> Z.testbit kk (Z.of_nat 254) = true ->
  zero_denominators (ladder_step kk x1 (1%bigZ, 0%bigZ, x1, 1%bigZ, false) 254).
Proof.
  intros H1 Hk. unfold ladder_step. rewrite Hk. cbn [xorb cswap zero_denominators]. split.
  - apply fmul_zero_l.
    rewrite fsub_spec, !fmul_spec, fadd_spec, fsub_spec, H1.
    vm_compute. reflexivity.
  - apply fmul_zero_l, H1.
Qed.

Lemma x25519_zero_point (k u : bytes) :
  BigZ.to_Z (decode_u u) = 0 -> x25519 k u = repeat x00 32.
Proof.
  intros H1. unfold x25519.
  set (kk := decode_scalar k). set (x1 := decode_u u).
  assert (Z : zero_denominators (fold_left (ladder_step kk x1) (rev (seq 0 255))
                    (1%bigZ, 0%bigZ, x1, 1%bigZ, false))).
  { replace (rev (seq 0 255)) with (254%nat :: rev (seq 0 254))
      by reflexivity.
    cbn [fold_left]. apply ladder_zero; [exact H1|].
    apply first_step_zero; [exact H1 | apply testbit_decode_scalar]. }
  destruct (fold_left _ _ _) as [[[[x2 z2] x3] z3] swap].
  destruct Z as [Z2 Z3].
  destruct swap; cbn [cswap];
    rewrite fmul_zero_r by (apply fpow_pos_zero; assumption); reflexivity.
Qed.

Lemma exchange_zero_key (sk : bytes) :
  exchange X25519 sk (repeat x00 32) = Raise ValueError.
Proof.
  cbn [exchange X25519].
  rewrite x25519_zero_point by (vm_compute; reflexivity). reflexivity.
Qed.

End ZeroPointFacts.

(** ** The top bit of a public key *)

Module TopBitFacts.

Import Asymmetric TopBit PrimitivesFacts.

Lemma int_from_bytes_le_app (a : bytes) (x : byte) :
  int_from_bytes_le (a ++ [x])
  = int_from_bytes_le a + 256 ^ Z.of_nat (List.length a) * byte_to_Z x.
Proof.
  unfold int_from_bytes_le. induction a as [|y a IH].
  - cbn [app fold_right List.length]. change (256 ^ Z.of_nat 0) with 1. lia.
  - cbn [app fold_right List.length].
    rewrite IH, Nat2Z.inj_succ, Z.pow_succ_r by lia. ring.
Qed.

Lemma byte_xor_top (x : byte) :
  byte_to_Z (byte_xor x80 x) mod 128 = byte_to_Z x mod 128.
Proof. (destruct x; reflexivity). Qed.

Lemma split_last (u : bytes) :
  List.length u = 32%nat -> u = firstn 31 u ++ [last u x00].
Proof.
  intros H. rewrite <- (firstn_skipn 31 u) at 1. f_equal.
  assert (L : List.length (skipn 31 u) = 1%nat)
    by (rewrite length_skipn; lia).
  rewrite <- (firstn_skipn 31 u) at 2.
  destruct (skipn 31 u) as [|y [|z r]]; try discriminate.
  now rewrite last_last.
Qed.

(** The value of the 255 low bits, from the first 31 bytes and the last
    one. *)
Lemma low_bits (a : bytes) (x : byte) :
  List.length a = 31%nat ->
  Z.land (int_from_bytes_le (a ++ [x])) (2 ^ 255 - 1)
  = (int_from_bytes_le a + 2 ^ 248 * (byte_to_Z x mod 128)) mod 2 ^ 255.
Proof.
  intros H. rewrite int_from_bytes_le_app, H.
  change (256 ^ Z.of_nat 31) with (2 ^ 248).
  change (2 ^ 255 - 1) with (Z.ones 255). rewrite Z.land_ones by lia.
  rewrite (Z.div_mod (byte_to_Z x) 128) at 1 by lia.
  replace (int_from_bytes_le a
           + 2 ^ 248 * (128 * (byte_to_Z x / 128) + byte_to_Z x mod 128))
    with (int_from_bytes_le a + 2 ^ 248 * (byte_to_Z x mod 128)
          + (byte_to_Z x / 128) * 2 ^ 255).
  - apply Z_mod_plus_full.
  - change (2 ^ 255) with (2 ^ 248 * 128). ring.
Qed.

Lemma decode_u_flip (u : bytes) :
  List.length u = 32%nat -> decode_u (flip_top_bit u) = decode_u u.
Proof.
  intros H. unfold decode_u, flip_top_bit.
  rewrite (split_last u H) at 3.
  assert (L : List.length (firstn 31 u) = 31%nat)
    by (rewrite length_firstn; lia).
  now rewrite !low_bits, byte_xor_top by exact L.
Qed.

Lemma flip_top_bit_length (u : bytes) :
  List.length u = 32%nat -> List.length (flip_top_bit u) = 32%nat.
Proof.
  intros H. unfold flip_top_bit. rewrite length_app, length_firstn.
  cbn [List.length]. lia.
Qed.

Lemma flip_top_bit_differs (u : bytes) :
  List.length u = 32%nat -> flip_top_bit u <> u.
Proof.
  intros H E. unfold flip_top_bit in E. rewrite (split_last u H) in E at 3.
  apply app_inv_head in E. injection E as E. revert E.
  destruct (last u x00); discriminate.
Qed.

Lemma x25519_flip (k u : bytes) :
  List.length u = 32%nat -> x25519 k (flip_top_bit u) = x25519 k u.
Proof. intros H. unfold x25519. now rewrite (decode_u_flip u H). Qed.

End TopBitFacts.

(** ** Base64 text and quoted text *)

Module TextFacts.

Import Base64 Urllib Text Base64Facts UrllibFacts.

Lemma getattr_encode_cases (name : string) (enc : bytes -> bytes) :
  getattr_encode name = Ok enc ->
  enc = b64encode \/ enc = urlsafe_b64encode.
Proof.
  unfold getattr_encode.
  destruct (String.eqb name "b64encode");
    [intros H; apply Ok_inj in H; subst; now left|].
  destruct (String.eqb name "standard_b64encode");
    [intros H; apply Ok_inj in H; subst; now left|].
  destruct (String.eqb name "urlsafe_b64encode");
    [intros H; apply Ok_inj in H; subst; now right | discriminate].
Qed.

Lemma b2a_length (bs : bytes) :
  List.length (b2a_base64 bs) = (4 * ((List.length bs + 2) / 3))%nat.
Proof.
  induction bs as [|x|x y|x y z r IH] using list_ind3;
    try reflexivity.
  cbn [b2a_base64 List.length]. rewrite IH.
  replace (S (S (S (List.length r))) + 2)%nat
    with ((List.length r + 2) + 1 * 3)%nat by lia.
  rewrite Nat.div_add by lia. lia.
Qed.

Lemma encode_length (name : string) (enc : bytes -> bytes) (b : bytes) :
  getattr_encode name = Ok enc ->
  List.length (enc b) = (4 * ((List.length b + 2) / 3))%nat.
Proof.
  intros H. destruct (getattr_encode_cases _ _ H) as [-> | ->].
  - apply b2a_length.
  - unfold urlsafe_b64encode, translate2. rewrite length_map.
    apply b2a_length.
Qed.

Lemma table_b2a_base64_char (n : N) :
  (n < 64)%N -> base64_char (table_b2a n) = true.
Proof.
  intros H. destruct n as [|p]; [reflexivity|].
  do 6 (try (destruct p as [p|p|]; try (exfalso; lia))); reflexivity.
Qed.

Lemma b2a_base64_char (bs : bytes) :
  forallb base64_char (b2a_base64 bs) = true.
Proof.
  induction bs as [|x|x y|x y z r IH] using list_ind3;
    cbn [b2a_base64 forallb];
    rewrite ?IH, ?table_b2a_base64_char by sextet;
    reflexivity.
Qed.

Lemma translate2_base64_char (s : bytes) :
  forallb base64_char s = true ->
  forallb base64_char (translate2 "+" "-" "/" "_" s) = true.
Proof.
  unfold translate2. rewrite !forallb_forall. intros H x Hx.
  apply in_map_iff in Hx as (y & <- & Hy). specialize (H y Hy). revert H.
  destruct (Byte.eqb y "+"); [reflexivity|].
  destruct (Byte.eqb y "/"); [reflexivity|]. auto.
Qed.

Lemma encode_base64_char (name : string) (enc : bytes -> bytes) (b : bytes) :
  getattr_encode name = Ok enc -> forallb base64_char (enc b) = true.
Proof.
  intros H. destruct (getattr_encode_cases _ _ H) as [-> | ->].
  - apply b2a_base64_char.
  - apply translate2_base64_char, b2a_base64_char.
Qed.

Lemma base64_char_not_percent (x : byte) :
  base64_char x = true -> not_percent x = true.
Proof. destruct x; (reflexivity || discriminate). Qed.

(** Text with no percent sign is left as it is. *)
Lemma unquote_scan_plain (s : bytes) :
  forallb not_percent s = true -> unquote_scan s = s.
Proof.
  induction s as [|x s IH]; [reflexivity|]. cbn [forallb]. intros H.
  apply andb_prop in H as [Hx Hs]. cbn [unquote_scan].
  unfold not_percent in Hx. apply negb_true_iff in Hx. rewrite Hx.
  now rewrite IH.
Qed.

Lemma quoter_bytes_url_char (x : byte) :
  forallb url_char (quoter_bytes (b_ "/") x) = true.
Proof. destruct x; reflexivity. Qed.

Lemma quoted_url_char (bs : bytes) :
  forallb url_char (flat_map (quoter_bytes (b_ "/")) bs) = true.
Proof.
  induction bs as [|x bs IH]; [reflexivity|]. cbn [flat_map].
  now rewrite forallb_app, quoter_bytes_url_char, IH.
Qed.

End TextFacts.

(** ** The seed behind a PSK *)

Module SeedFacts.

Import Hashes Primitives Asymmetric LibTACrypto LibTACrypto.PreSharedKey.
Import Base64Facts UrllibFacts PrimitivesFacts X25519Facts PreSharedKeyFacts.
Import Text TextFacts.

Lemma base64_char_ascii (x : byte) :
  base64_char x = true -> Base64.is_ascii x = true.
Proof.
  destruct x; intros H; first [reflexivity | vm_compute in H; discriminate H].
Qed.

Lemma forallb_impl {A : Type} (p q : A -> bool) (l : list A) :
  (forall x, p x = true -> q x = true) ->
  forallb p l = true -> forallb q l = true.
Proof.
  intros H. rewrite !forallb_forall. intros Hp x Hx. now apply H, Hp.
Qed.

(** Base64 text goes through [unquote_to_bytes] unchanged. *)
Lemma unquote_base64_text (s : bytes) :
  forallb base64_char s = true ->
  Urllib.unquote_to_bytes (map Byte.to_N s) = Ok s.
Proof.
  intros H. unfold Urllib.unquote_to_bytes.
  rewrite str_encode_ascii
    by (revert H; apply forallb_impl, base64_char_ascii).
  cbn [bind]. rewrite unquote_scan_plain; [reflexivity|].
  revert H. apply forallb_impl, base64_char_not_percent.
Qed.

(** What a call of [derive] that returns has computed. *)
Lemma derive_Ok_inv (rnd : bytes) (curve base algorithm : string) (s : self)
  (user pk v : str) :
  __init__ rnd curve base algorithm = Ok s ->
  derive s user pk = Ok v ->
  exists (sharedKey info seed : bytes),
    Codecs.str_encode user = Ok info
    /\ hkdf_derive (_algorithm s) 20 info sharedKey = Ok seed
    /\ List.length seed = 20%nat
    /\ v = map Byte.to_N (_baseEncode s seed).
Proof.
  intros I G. pose proof (init_codec_ok _ _ _ _ _ I) as (_ & Cascii & _).
  unfold derive in G.
  apply bind_Ok in G as (encodedPubKey & _ & G).
  apply bind_Ok in G as (raw & _ & G).
  apply bind_Ok in G as (bytesPubKey & _ & G).
  apply bind_Ok in G as (sharedKey & _ & G).
  apply bind_Ok in G as (info & H5 & G).
  apply bind_Ok in G as (seed & H6 & G).
  rewrite bytes_decode_ascii in G by apply Cascii. apply Ok_inj in G.
  exists sharedKey, info, seed.
  split; [exact H5|]. split; [exact H6|].
  split; [exact (hkdf_derive_20_length _ _ _ _ H6) | now symmetry].
Qed.

(** The PSK is the text of a 20-byte seed, which the decoder of the
    instance reads back from it. *)
Lemma derive_seed (rnd : bytes) (curve base algorithm : string) (s : self)
  (user pk v : str) :
  __init__ rnd curve base algorithm = Ok s ->
  derive s user pk = Ok v ->
  exists seed : bytes,
    List.length seed = 20%nat
    /\ v = map Byte.to_N (_baseEncode s seed)
    /\ forallb base64_char (_baseEncode s seed) = true
    /\ _baseDecode s (PyStr v) = Ok seed
    /\ List.length v = 28%nat.
Proof.
  intros I G.
  destruct (derive_Ok_inv _ _ _ _ _ _ _ _ I G)
    as (sharedKey & info & seed & _ & _ & Hl & ->).
  pose proof (init_codec_ok _ _ _ _ _ I) as (Crt & Cascii & Cstr).
  apply init_inv in I as (_ & _ & _ & He & _).
  exists seed. split; [exact Hl|]. split; [reflexivity|].
  split; [exact (encode_base64_char _ _ _ He)|]. split.
  - rewrite Cstr by apply Cascii. apply Crt.
  - rewrite length_map, (encode_length _ _ _ He), Hl. reflexivity.
Qed.

Lemma hotp_generate_Ok (key : bytes) (length : Z) (h : HashAlgorithm)
  (counter : Z) :
  (16 <= List.length key)%nat -> 6 <= length <= 8 ->
  h = SHA1 \/ h = SHA256 \/ h = SHA512 ->
  0 <= counter < 2 ^ 64 ->
  exists otp, hotp_generate key length h counter = Ok otp.
Proof.
  intros Hk Hl Hh Hc. unfold hotp_generate.
  replace (List.length key <? 16)%nat with false
    by (symmetry; apply Nat.ltb_ge; lia).
  replace (length <? 6) with false by (symmetry; apply Z.ltb_ge; lia).
  replace (8 <? length) with false by (symmetry; apply Z.ltb_ge; lia).
  cbn [orb]. unfold dynamic_truncate, int_to_bytes.
  replace (0 <=? counter) with true by (symmetry; apply Z.leb_le; lia).
  replace (counter <? 256 ^ Z.of_nat 8) with true
    by (symmetry; apply Z.ltb_lt; change (256 ^ Z.of_nat 8) with (2 ^ 64);
        lia).
  cbn [andb]. destruct Hh as [-> | [-> | ->]]; cbn [bind]; eexists;
    reflexivity.
Qed.

End SeedFacts.

(** ** UTF-8 *)

Module CodecFacts.

Import Codecs Text.
Local Open Scope N_scope.

(** Division and remainder by a constant, for [lia]. *)
#[local] Ltac Zify.zify_post_hook ::= Z.to_euclidean_division_equations.

Lemma to_N_byte_of_N (n : N) : n < 256 -> Byte.to_N (byte_of_N n) = n.
Proof.
  intros H. unfold byte_of_N. destruct (Byte.of_N n) as [x|] eqn:E.
  - now apply Byte.to_of_N.
  - apply Byte.of_N_None_iff in E. lia.
Qed.

Ltac test_true :=
  repeat (apply andb_true_intro; split);
  first [ reflexivity | apply N.leb_le; lia | apply N.ltb_lt; lia ].

Ltac test_false :=
  first [ apply N.ltb_ge; lia | apply N.leb_gt; lia
        | apply andb_false_iff; left; apply N.leb_gt; lia
        | apply andb_false_iff; right; apply N.leb_gt; lia ].

(** Settle the test of the outermost conditional. *)
Ltac step_if :=
  match goal with
  | |- (if ?b then _ else _) = _ =>
      let t := fresh "T" in
      first [ assert (t : b = true) by test_true
            | assert (t : b = false) by test_false ];
      rewrite t; clear t
  end.

(** Decoding reads one encoded character back, whatever follows it. *)
Lemma utf8_char_decode (c : codepoint) (x y : bytes) :
  utf8_char c = Ok x ->
  bytes_decode (x ++ y) = fmap (cons c) (bytes_decode y).
Proof.
  unfold utf8_char.
  destruct (N.ltb_spec c 0x80) as [H1|H1].
  { intros E. apply Ok_inj in E. subst x. cbn [app bytes_decode].
    rewrite to_N_byte_of_N by lia. step_if. reflexivity. }
  destruct (N.ltb_spec c 0x800) as [H2|H2].
  { intros E. apply Ok_inj in E. subst x. cbn [app bytes_decode].
    unfold is_cont, cont_bits. rewrite !to_N_byte_of_N by lia.
    do 3 step_if. do 2 f_equal. lia. }
  destruct (N.ltb_spec c 0x10000) as [H3|H3].
  { destruct (is_surrogate c) eqn:S; [discriminate|].
    intros E. apply Ok_inj in E. subst x. cbn [app bytes_decode].
    unfold is_cont, cont_bits. rewrite !to_N_byte_of_N by lia.
    do 3 step_if.
    match goal with
    | |- context [is_surrogate ?e] => replace e with c by lia
    end.
    rewrite S. cbn [negb]. step_if. reflexivity. }
  destruct (N.ltb_spec c 0x110000) as [H4|H4]; [|discriminate].
  intros E. apply Ok_inj in E. subst x. cbn [app bytes_decode].
  unfold is_cont, cont_bits. rewrite !to_N_byte_of_N by lia.
  do 4 step_if.
  match goal with
  | |- context [N.leb 0x10000 ?e] => replace e with c by lia
  end.
  step_if. reflexivity.
Qed.

(** [bytes.decode] undoes [str.encode]. *)
Lemma decode_encode (s : str) (b : bytes) :
  str_encode s = Ok b -> bytes_decode b = Ok s.
Proof.
  revert b. induction s as [|c s IH]; intros b H.
  - apply Ok_inj in H. now subst b.
  - cbn [str_encode] in H.
    apply bind_Ok in H as (x & Hx & H). apply bind_Ok in H as (y & Hy & H).
    apply Ok_inj in H. subst b.
    rewrite (utf8_char_decode c x y Hx), (IH y Hy). reflexivity.
Qed.

Lemma str_encode_inj (s t : str) (b : bytes) :
  str_encode s = Ok b -> str_encode t = Ok b -> s = t.
Proof.
  intros Hs Ht. apply decode_encode in Hs, Ht. congruence.
Qed.

Lemma utf8_char_scalar (c : codepoint) :
  if is_scalar c then exists x, utf8_char c = Ok x
  else utf8_char c = Raise UnicodeEncodeError.
Proof.
  unfold is_scalar, utf8_char, is_surrogate.
  destruct (N.ltb_spec c 0x110000); destruct (N.leb_spec 0xD800 c);
    destruct (N.leb_spec c 0xDFFF); cbn [andb negb];
    repeat match goal with
           | |- context [N.ltb ?a ?b] =>
               destruct (N.ltb_spec a b); try (exfalso; lia)
           end; try reflexivity; eexists; reflexivity.
Qed.

(** [str.encode] returns exactly on the strings of scalar values, and
    raises [UnicodeEncodeError] on the others. *)
Lemma str_encode_scalar (s : str) :
  if forallb is_scalar s then exists b, str_encode s = Ok b
  else str_encode s = Raise UnicodeEncodeError.
Proof.
  induction s as [|c s IH]; [now exists []|]. cbn [forallb str_encode].
  pose proof (utf8_char_scalar c) as Hc.
  destruct (is_scalar c); cbn [andb].
  - destruct Hc as (x & ->). cbn [bind].
    destruct (forallb is_scalar s).
    + destruct IH as (y & ->). cbn [bind]. eexists; reflexivity.
    + rewrite IH. reflexivity.
  - rewrite Hc. reflexivity.
Qed.

End CodecFacts.

(** ** Curve names *)

Module NameFacts.

Import LibTACrypto.

Lemma lower_char_x (a : ascii) :
  lower_char a = "x"%char -> upper_char a = "X"%char.
Proof.
  destruct a as [[] [] [] [] [] [] [] []]; intros H;
    first [reflexivity | vm_compute in H; discriminate H].
Qed.

Lemma capitalize_x25519 (curve : string) :
  lower curve = "x25519"%string -> capitalize curve = "X25519"%string.
Proof.
  destruct curve as [|a r]; [discriminate|]. cbn [lower capitalize].
  intros H. injection H as Ha Hr. now rewrite (lower_char_x a Ha), Hr.
Qed.

End NameFacts.

(** ** The digits of a formatted value *)

Module DigitsFacts.

Import Primitives Digits.

Lemma lsd_zero (w : nat) : lsd w 0 = repeat "0"%byte w.
Proof. induction w as [|w IH]; [reflexivity|]. cbn [lsd repeat]. now f_equal. Qed.

Lemma lsd_length (w : nat) (v : Z) : List.length (lsd w v) = w.
Proof.
  revert v. induction w as [|w IH]; intros v; [reflexivity|].
  cbn [lsd List.length]. now rewrite IH.
Qed.

Lemma decimal_rev_lsd (fuel w : nat) (v : Z) :
  0 <= v < 2 ^ Z.of_nat fuel -> v < 10 ^ Z.of_nat w -> (1 <= w)%nat ->
  decimal_rev fuel v
  ++ repeat "0"%byte (w - List.length (decimal_rev fuel v))
  = lsd w v.
Proof.
  revert w v. induction fuel as [|fuel IH]; intros w v Hv Hw H1.
  - cbn in Hv. assert (v = 0) by lia. subst v. cbn [decimal_rev app].
    cbn [List.length]. rewrite Nat.sub_0_r. symmetry. apply lsd_zero.
  - destruct w as [|w]; [lia|]. cbn [decimal_rev lsd].
    rewrite <- app_comm_cons. f_equal.
    rewrite Nat2Z.inj_succ, Z.pow_succ_r in Hv, Hw by lia.
    destruct (Z.ltb_spec v 10) as [Lt|Ge].
    + cbn [List.length app]. replace (S w - 1)%nat with w by lia.
      rewrite Z.div_small by lia. symmetry. apply lsd_zero.
    + cbn [List.length]. rewrite Nat.sub_succ.
      assert (W : (1 <= w)%nat).
      { destruct w as [|w]; [cbn in Hw; lia | lia]. }
      apply IH; [split | | exact W].
      * apply Z.div_pos; lia.
      * apply Z.div_lt_upper_bound; lia.
      * apply Z.div_lt_upper_bound; lia.
Qed.

Lemma rev_repeat_same {A : Type} (x : A) (n : nat) :
  rev (repeat x n) = repeat x n.
Proof.
  induction n as [|n IH]; [reflexivity|]. cbn [repeat rev]. rewrite IH.
  symmetry. apply repeat_cons.
Qed.

(** The formatted value is the digits of the value, most significant
    first. *)
Lemma format_zero_padded_lsd (v : Z) (w : nat) :
  0 <= v < 10 ^ Z.of_nat w -> (1 <= w)%nat ->
  format_zero_padded v w = rev (lsd w v).
Proof.
  intros Hv Hw. unfold format_zero_padded, decimal.
  set (fuel := S (Z.to_nat (Z.log2 v))).
  assert (F : 0 <= v < 2 ^ Z.of_nat fuel).
  { split; [lia|]. unfold fuel.
    rewrite Nat2Z.inj_succ, Z2Nat.id by apply Z.log2_nonneg.
    destruct (Z.eq_dec v 0) as [-> | N]; [reflexivity|].
    apply Z.log2_spec. lia. }
  rewrite <- (decimal_rev_lsd fuel w v F (proj2 Hv) Hw).
  rewrite rev_app_distr, rev_repeat_same, length_rev. reflexivity.
Qed.

Lemma lsd_mod (l l' : nat) (v : Z) :
  (l <= l')%nat -> lsd l (v mod 10 ^ Z.of_nat l') = lsd l v.
Proof.
  revert l' v. induction l as [|l IH]; intros l' v H; [reflexivity|].
  destruct l' as [|l']; [lia|]. cbn [lsd].
  rewrite Nat2Z.inj_succ, Z.pow_succ_r by lia.
  assert (P : 0 < 10 ^ Z.of_nat l') by (apply Z.pow_pos_nonneg; lia).
  rewrite Z.rem_mul_r by lia.
  replace ((v mod 10 + 10 * ((v / 10) mod 10 ^ Z.of_nat l')) mod 10)
    with (v mod 10)
    by (rewrite (Z.mul_comm 10), Z_mod_plus_full, Z.mod_mod by lia;
        reflexivity).
  replace ((v mod 10 + 10 * ((v / 10) mod 10 ^ Z.of_nat l')) / 10)
    with ((v / 10) mod 10 ^ Z.of_nat l').
  - f_equal. apply IH. lia.
  - rewrite (Z.mul_comm 10), Z_div_plus_full by lia.
    rewrite (Z.div_small (v mod 10)) by (apply Z.mod_pos_bound; lia).
    reflexivity.
Qed.

Lemma lsd_app (l m : nat) (v : Z) :
  lsd (l + m) v = lsd l v ++ lsd m (v / 10 ^ Z.of_nat l).
Proof.
  revert v. induction l as [|l IH]; intros v.
  - cbn [plus lsd app]. now rewrite Z.div_1_r.
  - cbn [plus lsd]. rewrite <- app_comm_cons. f_equal.
    rewrite IH. f_equal. f_equal.
    rewrite Nat2Z.inj_succ, Z.pow_succ_r by lia.
    rewrite Z.div_div; [reflexivity | lia |].
    apply Z.pow_pos_nonneg; lia.
Qed.

(** A value written on fewer digits is the end of the same value written
    on more. *)
Lemma format_zero_padded_suffix (t : Z) (l l' : nat) :
  (1 <= l <= l')%nat ->
  format_zero_padded (t mod 10 ^ Z.of_nat l) l
  = skipn (l' - l)
      (format_zero_padded (t mod 10 ^ Z.of_nat l') l').
Proof.
  intros H.
  assert (P : forall n : nat, 0 < 10 ^ Z.of_nat n)
    by (intros n; apply Z.pow_pos_nonneg; lia).
  rewrite !format_zero_padded_lsd
    by (try lia; apply Z.mod_pos_bound, P).
  rewrite !lsd_mod by lia.
  replace l' with (l + (l' - l))%nat at 2 by lia.
  rewrite lsd_app, rev_app_distr, skipn_app.
  rewrite length_rev, lsd_length, Nat.sub_diag. cbn [skipn].
  rewrite skipn_all2; [reflexivity|].
  rewrite length_rev, lsd_length. lia.
Qed.

End DigitsFacts.

(** ** The key in transport, and the PSK as a seed *)

Section KeyTransport.

Import Hashes Primitives Asymmetric LibTACrypto LibTACrypto.PreSharedKey.
Import Vectors Base64Facts UrllibFacts PrimitivesFacts X25519Facts.
Import PreSharedKeyFacts VectorFacts HotpFacts.
Import Text TextFacts SeedFacts ZeroPointFacts.

(** X1.  Whatever the instance holds, the key that [exportPubKey] returns
    is written with unreserved characters, the slash and the percent sign
    of an escape only: it can stand in a URL as it is. *)
Theorem exportPubKey_url_text (s : self) :
  exists t : bytes,
    fst (exportPubKey s) = map Byte.to_N t /\ forallb url_char t = true.
Proof.
  exists (flat_map (Urllib.quoter_bytes (b_ "/"))
            (_baseEncode s (public_bytes (_ECPrivateKey s) (_pvtKey s)))).
  split; [apply quote_as_bytes | apply quoted_url_char].
Qed.

(** X2.  On the curve x25519 and with a base of the base64 family, the
    first steps of [generate] undo [exportPubKey]: unquoting the exported
    key and decoding it with the instance's decoder give the raw public key
    back, 32 bytes that [from_public_bytes] accepts. *)
Theorem exported_key_decodes (rnd : bytes) (curve base algorithm : string)
  (s : self) :
  lower curve = "x25519"%string ->
  In base Names.base64_family ->
  __init__ rnd curve base algorithm = Ok s ->
  exists encodedPubKey raw : bytes,
    Urllib.unquote_to_bytes (fst (exportPubKey s)) = Ok encodedPubKey
    /\ _baseDecode s (PyBytes encodedPubKey) = Ok raw
    /\ from_public_bytes (_ECPublicKey s) raw = Ok raw
    /\ List.length raw = 32%nat
    /\ raw = x25519 rnd basepoint.
Proof.
  intros _ _ I. pose proof (init_codec_ok _ _ _ _ _ I) as (Crt & _ & _).
  apply init_inv in I as (Hp & Hq & Hk & _).
  exists (_baseEncode s (x25519 rnd basepoint)), (x25519 rnd basepoint).
  unfold exportPubKey. cbn [fst]. rewrite Hp, Hq, Hk.
  cbn [public_bytes from_public_bytes X25519].
  split; [apply unquote_quote|]. split; [apply Crt|].
  rewrite x25519_length. split; [reflexivity|]. split; reflexivity.
Qed.

Lemma exported_key_decodes_witness :
  lower "x25519" = "x25519"%string
  /\ In "b64"%string Names.base64_family
  /\ __init__ alice_private "x25519" "b64" "SHA256" = Ok alice
  /\ exists encodedPubKey raw : bytes,
       Urllib.unquote_to_bytes (fst (exportPubKey alice)) = Ok encodedPubKey
       /\ _baseDecode alice (PyBytes encodedPubKey) = Ok raw
       /\ from_public_bytes (_ECPublicKey alice) raw = Ok raw
       /\ List.length raw = 32%nat
       /\ raw = x25519 alice_private basepoint.
Proof.
  assert (B : In "b64"%string Names.base64_family) by (left; reflexivity).
  split; [reflexivity|]. split; [exact B|]. split; [exact alice_init|].
  exact (exported_key_decodes alice_private "x25519" "b64" "SHA256" alice
           eq_refl B alice_init).
Defined.

(** X3.  When the peer was built with a base of the base64 family,
    [generate] takes its key quoted, as [exportPubKey] returns it, or as the
    bare encoded text: base64 text has no percent sign, so unquoting leaves
    it as it is, and the two calls have the same outcome and the same
    effect. *)
Theorem generate_accepts_unquoted_key (rnd : bytes)
  (curve base algorithm : string) (b a : self) (user : str) :
  In base Names.base64_family ->
  __init__ rnd curve base algorithm = Ok b ->
  generate a user
    (map Byte.to_N
       (_baseEncode b (public_bytes (_ECPrivateKey b) (_pvtKey b))))
  = generate a user (fst (exportPubKey b)).
Proof.
  intros _ I. apply init_inv in I as (_ & _ & _ & He & _).
  unfold generate, derive, exportPubKey. cbn [fst].
  rewrite unquote_quote.
  rewrite unquote_base64_text by exact (encode_base64_char _ _ _ He).
  reflexivity.
Qed.

Lemma generate_accepts_unquoted_key_witness :
  In "b64"%string Names.base64_family
  /\ __init__ bob_private "x25519" "b64" "SHA256" = Ok bob
  /\ generate alice (s_ "alice")
       (map Byte.to_N
          (_baseEncode bob (public_bytes (_ECPrivateKey bob) (_pvtKey bob))))
     = generate alice (s_ "alice") (fst (exportPubKey bob)).
Proof.
  assert (B : In "b64"%string Names.base64_family) by (left; reflexivity).
  split; [exact B|]. split; [exact bob_init|].
  exact (generate_accepts_unquoted_key bob_private "x25519" "b64" "SHA256"
           bob alice (s_ "alice") B bob_init).
Defined.

(** X4.  On the curve x25519, a peer key that unquotes and decodes to
    anything but 32 bytes makes [generate] raise [ValueError], whatever the
    identity; [PSK] is not assigned. *)
Theorem generate_rejects_wrong_length (rnd : bytes)
  (curve base algorithm : string) (s : self) (user recipientPubKey : str)
  (encodedPubKey raw : bytes) :
  lower curve = "x25519"%string ->
  __init__ rnd curve base algorithm = Ok s ->
  Urllib.unquote_to_bytes recipientPubKey = Ok encodedPubKey ->
  _baseDecode s (PyBytes encodedPubKey) = Ok raw ->
  List.length raw <> 32%nat ->
  generate s user recipientPubKey = (Raise ValueError, s).
Proof.
  intros _ I Hu Hd Hl. apply init_inv in I as (_ & Hq & _).
  unfold generate, derive. rewrite Hu. cbn [bind]. rewrite Hd. cbn [bind].
  rewrite Hq. cbn [from_public_bytes X25519].
  apply Nat.eqb_neq in Hl. rewrite Hl. reflexivity.
Qed.

Lemma generate_rejects_wrong_length_witness :
  lower "x25519" = "x25519"%string
  /\ __init__ alice_private "x25519" "b64" "SHA256" = Ok alice
  /\ Urllib.unquote_to_bytes (s_ "3p7bfXt9wbTTW2HC")
     = Ok (b_ "3p7bfXt9wbTTW2HC")
  /\ _baseDecode alice (PyBytes (b_ "3p7bfXt9wbTTW2HC"))
     = Ok (firstn 12 bob_public)
  /\ List.length (firstn 12 bob_public) <> 32%nat
  /\ generate alice (s_ "alice") (s_ "3p7bfXt9wbTTW2HC")
     = (Raise ValueError, alice).
Proof.
  assert (Hu : Urllib.unquote_to_bytes (s_ "3p7bfXt9wbTTW2HC")
               = Ok (b_ "3p7bfXt9wbTTW2HC")) by reflexivity.
  assert (Hd : _baseDecode alice (PyBytes (b_ "3p7bfXt9wbTTW2HC"))
               = Ok (firstn 12 bob_public)) by reflexivity.
  assert (Hl : List.length (firstn 12 bob_public) <> 32%nat)
    by (cbn; lia).
  split; [reflexivity|].
  split; [exact alice_init|]. split; [exact Hu|]. split; [exact Hd|].
  split; [exact Hl|].
  exact (generate_rejects_wrong_length alice_private "x25519" "b64" "SHA256"
           alice (s_ "alice") _ _ _ eq_refl alice_init Hu Hd Hl).
Defined.

(** X5.  The all-zero public key is refused for every private key: the
    exchange with it ends in the all-zero secret, which is an error, so
    [generate] raises [ValueError] and assigns nothing. *)
Theorem generate_rejects_zero_key (rnd : bytes)
  (curve base algorithm : string) (s : self) (user : str) :
  __init__ rnd curve base algorithm = Ok s ->
  exchange (_ECPrivateKey s) (_pvtKey s) (repeat x00 32) = Raise ValueError
  /\ generate s user
       (Urllib.quote_from_bytes (_baseEncode s (repeat x00 32)))
     = (Raise ValueError, s).
Proof.
  intros I. pose proof (init_codec_ok _ _ _ _ _ I) as (Crt & _ & _).
  apply init_inv in I as (Hp & Hq & _).
  assert (X : exchange (_ECPrivateKey s) (_pvtKey s) (repeat x00 32)
              = Raise ValueError)
    by (rewrite Hp; apply exchange_zero_key).
  split; [exact X|].
  unfold generate, derive. rewrite unquote_quote. cbn [bind].
  rewrite Crt. cbn [bind]. rewrite Hq.
  change (from_public_bytes X25519 (repeat x00 32))
    with (@Ok bytes (repeat x00 32)).
  cbn [bind]. rewrite X. reflexivity.
Qed.

Lemma generate_rejects_zero_key_witness :
  __init__ alice_private "x25519" "b64" "SHA256" = Ok alice
  /\ exchange (_ECPrivateKey alice) (_pvtKey alice) (repeat x00 32)
     = Raise ValueError
  /\ generate alice (s_ "alice")
       (Urllib.quote_from_bytes (_baseEncode alice (repeat x00 32)))
     = (Raise ValueError, alice).
Proof.
  split; [exact alice_init|].
  exact (generate_rejects_zero_key alice_private "x25519" "b64" "SHA256"
           alice (s_ "alice") alice_init).
Defined.

(** X6.  With a base of the base64 family, every PSK that [generate]
    returns is 28 characters long: the base64 text of a 20-byte seed.
    Decoded as a [str] by the instance's decoder, as [getHotp] decodes it,
    it gives the seed back. *)
Theorem generate_PSK_shape (rnd : bytes) (curve base algorithm : string)
  (s : self) (user recipientPubKey v : str) :
  In base Names.base64_family ->
  __init__ rnd curve base algorithm = Ok s ->
  fst (generate s user recipientPubKey) = Ok v ->
  List.length v = 28%nat
  /\ exists seed : bytes,
       List.length seed = 20%nat
       /\ v = map Byte.to_N (_baseEncode s seed)
       /\ forallb base64_char (_baseEncode s seed) = true
       /\ _baseDecode s (PyStr v) = Ok seed.
Proof.
  intros _ I G. rewrite generate_fst in G.
  destruct (derive_seed _ _ _ _ _ _ _ _ I G)
    as (seed & Hl & Hv & Hc & Hd & L).
  split; [exact L|]. exists seed.
  split; [exact Hl|]. split; [exact Hv|]. split; [exact Hc | exact Hd].
Qed.

Lemma generate_PSK_shape_witness :
  In "b64"%string Names.base64_family
  /\ __init__ alice_private "x25519" "b64" "SHA256" = Ok alice
  /\ fst (generate alice (s_ "alice") (fst (exportPubKey bob)))
     = Ok (s_ "b0DE6zn8mqe2nClXBpu1h32Um9g=")
  /\ List.length (s_ "b0DE6zn8mqe2nClXBpu1h32Um9g=") = 28%nat
  /\ exists seed : bytes,
       List.length seed = 20%nat
       /\ s_ "b0DE6zn8mqe2nClXBpu1h32Um9g="
          = map Byte.to_N (_baseEncode alice seed)
       /\ forallb base64_char (_baseEncode alice seed) = true
       /\ _baseDecode alice (PyStr (s_ "b0DE6zn8mqe2nClXBpu1h32Um9g="))
          = Ok seed.
Proof.
  assert (G : fst (generate alice (s_ "alice") (fst (exportPubKey bob)))
              = Ok (s_ "b0DE6zn8mqe2nClXBpu1h32Um9g="))
    by (rewrite alice_generate; reflexivity).
  assert (B : In "b64"%string Names.base64_family) by (left; reflexivity).
  split; [exact B|]. split; [exact alice_init|]. split; [exact G|].
  exact (generate_PSK_shape alice_private "x25519" "b64" "SHA256" alice
           (s_ "alice") (fst (exportPubKey bob)) _ B alice_init G).
Defined.

(** X7.  The two halves of the library compose: a PSK that [generate]
    returned, given to [getHotp] with the base of the instance, one of the
    algorithms SHA1, SHA256 and SHA512, a length from 6 to 8 and a counter
    of 64 bits, always yields a value, of [length] decimal digits. *)
Theorem generate_then_getHotp (rnd : bytes) (curve base algorithm : string)
  (s : self) (user recipientPubKey v : str) (count : Z)
  (hotpAlgorithm : string) (length : Z) :
  __init__ rnd curve base algorithm = Ok s ->
  fst (generate s user recipientPubKey) = Ok v ->
  In hotpAlgorithm ["SHA1"; "SHA256"; "SHA512"]%string ->
  6 <= length <= 8 ->
  0 <= count < 2 ^ 64 ->
  exists otp : bytes,
    getHotp v count base hotpAlgorithm length = Ok (PyBytes otp)
    /\ List.length otp = Z.to_nat length
    /\ forallb is_digit otp = true.
Proof.
  intros I G Ha Hl Hc. rewrite generate_fst in G.
  destruct (derive_seed _ _ _ _ _ _ _ _ I G) as (seed & Hs & _ & _ & Hd & _).
  apply init_inv in I as (_ & _ & _ & _ & Hdec & _).
  assert (A : exists h, Hashes.getattr hotpAlgorithm = Ok h
                        /\ (h = SHA1 \/ h = SHA256 \/ h = SHA512)).
  { destruct Ha as [<- | [<- | [<- | []]]];
      [exists SHA1 | exists SHA256 | exists SHA512]; auto. }
  destruct A as (h & Hh & Hin).
  destruct (hotp_generate_Ok seed length h count) as (otp & Ho);
    [lia | exact Hl | exact Hin | exact Hc |].
  exists otp. unfold getHotp. rewrite Hdec. cbn [bind]. rewrite Hh.
  cbn [bind]. rewrite Hd. cbn [bind]. rewrite Ho.
  split; [reflexivity | exact (hotp_generate_shape _ _ _ _ _ Ho)].
Qed.

Lemma generate_then_getHotp_witness :
  __init__ alice_private "x25519" "b64" "SHA256" = Ok alice
  /\ fst (generate alice (s_ "alice") (fst (exportPubKey bob)))
     = Ok (s_ "b0DE6zn8mqe2nClXBpu1h32Um9g=")
  /\ exists otp : bytes,
       getHotp (s_ "b0DE6zn8mqe2nClXBpu1h32Um9g=") 0 "b64" "SHA256" 6
       = Ok (PyBytes otp)
       /\ List.length otp = Z.to_nat 6
       /\ forallb is_digit otp = true.
Proof.
  assert (G : fst (generate alice (s_ "alice") (fst (exportPubKey bob)))
              = Ok (s_ "b0DE6zn8mqe2nClXBpu1h32Um9g="))
    by (rewrite alice_generate; reflexivity).
  split; [exact alice_init|]. split; [exact G|].
  apply (generate_then_getHotp alice_private "x25519" "b64" "SHA256" alice
           (s_ "alice") (fst (exportPubKey bob)) _ 0 "SHA256" 6 alice_init G).
  - right. left. reflexivity.
  - lia.
  - split; [lia | reflexivity].
Defined.

End KeyTransport.

(** ** The arguments of [getHotp] *)

Section HotpArguments.

Import Hashes Primitives LibTACrypto Vectors Base64 Base64Facts HotpFacts.
Import SeedFacts.

(** X8.  For a base of the base64 family and one of the five SHA
    algorithms, when the PSK decodes, [getHotp] returns a value exactly when
    the decoded key has 16 bytes at least, the length is 6, 7 or 8, the
    algorithm is SHA1, SHA256 or SHA512, and the counter fits 64 bits; in
    every other case it raises. *)
Theorem getHotp_succeeds_iff (preSharedKey : str) (count : Z)
  (base algorithm : string) (length : Z)
  (baseDecode : object -> result bytes) (h : HashAlgorithm) (key : bytes) :
  In base Names.base64_family ->
  In algorithm Names.sha_names ->
  getattr_decode (base ++ "decode") = Ok baseDecode ->
  Hashes.getattr algorithm = Ok h ->
  baseDecode (PyStr preSharedKey) = Ok key ->
  (exists o, getHotp preSharedKey count base algorithm length = Ok o)
  <-> ((16 <= List.length key)%nat
       /\ 6 <= length <= 8
       /\ (h = SHA1 \/ h = SHA256 \/ h = SHA512)
       /\ 0 <= count < 2 ^ 64).
Proof.
  intros _ _ Hd Hh Hk. unfold getHotp. rewrite Hd. cbn [bind]. rewrite Hh.
  cbn [bind]. rewrite Hk. cbn [bind]. split.
  - intros (o & H). apply fmap_Ok in H as (otp & H & _).
    unfold hotp_generate in H.
    destruct (Nat.ltb_spec (List.length key) 16) as [|L]; [discriminate|].
    destruct (Z.ltb_spec length 6) as [|L6]; [discriminate|].
    destruct (Z.ltb_spec 8 length) as [|L8]; [discriminate|].
    cbn [orb] in H.
    assert (C : 0 <= count < 2 ^ 64).
    { unfold dynamic_truncate, int_to_bytes in H.
      destruct (Z.leb_spec 0 count) as [C0|];
        [|destruct h; discriminate].
      destruct (Z.ltb_spec count (256 ^ Z.of_nat 8)) as [C1|];
        [|destruct h; discriminate].
      change (256 ^ Z.of_nat 8) with (2 ^ 64) in C1. lia. }
    split; [lia|]. split; [lia|]. split; [|exact C].
    destruct h; try discriminate; auto.
  - intros (L & Hl & Ha & Hc).
    destruct (hotp_generate_Ok key length h count L Hl Ha Hc) as (otp & ->).
    now exists (PyBytes otp).
Qed.

Lemma getHotp_succeeds_iff_witness :
  In "b64"%string Names.base64_family
  /\ In "SHA256"%string Names.sha_names
  /\ getattr_decode ("b64" ++ "decode") = Ok b64decode
  /\ Hashes.getattr "SHA256" = Ok SHA256
  /\ b64decode (PyStr rfc4226_key) = Ok (b_ "12345678901234567890")
  /\ ((exists o, getHotp rfc4226_key 0 "b64" "SHA256" 6 = Ok o)
      <-> ((16 <= List.length (b_ "12345678901234567890"))%nat
           /\ 6 <= 6 <= 8
           /\ (SHA256 = SHA1 \/ SHA256 = SHA256 \/ SHA256 = SHA512)
           /\ 0 <= 0 < 2 ^ 64)).
Proof.
  assert (B : In "b64"%string Names.base64_family) by (left; reflexivity).
  assert (A : In "SHA256"%string Names.sha_names)
    by (right; right; left; reflexivity).
  split; [exact B|]. split; [exact A|].
  split; [reflexivity|]. split; [reflexivity|]. split; [reflexivity|].
  exact (getHotp_succeeds_iff rfc4226_key 0 "b64" "SHA256" 6 b64decode
           SHA256 (b_ "12345678901234567890") B A eq_refl eq_refl eq_refl).
Defined.

(** X9.  For a base of the base64 family and one of the five SHA
    algorithms, what the checks of the HOTP constructor raise through
    [getHotp], in their order: [ValueError] for a decoded key under 16
    bytes, then [ValueError] for a length outside 6 to 8, then [TypeError]
    for SHA224 and SHA384. *)
Theorem getHotp_constructor_errors (preSharedKey : str) (count : Z)
  (base algorithm : string) (length : Z)
  (baseDecode : object -> result bytes) (h : HashAlgorithm) (key : bytes) :
  In base Names.base64_family ->
  In algorithm Names.sha_names ->
  getattr_decode (base ++ "decode") = Ok baseDecode ->
  Hashes.getattr algorithm = Ok h ->
  baseDecode (PyStr preSharedKey) = Ok key ->
  ((List.length key < 16)%nat ->
   getHotp preSharedKey count base algorithm length = Raise ValueError)
  /\ ((16 <= List.length key)%nat -> length < 6 \/ 8 < length ->
      getHotp preSharedKey count base algorithm length = Raise ValueError)
  /\ ((16 <= List.length key)%nat -> 6 <= length <= 8 ->
      h = SHA224 \/ h = SHA384 ->
      getHotp preSharedKey count base algorithm length = Raise TypeError).
Proof.
  intros _ _ Hd Hh Hk. unfold getHotp. rewrite Hd. cbn [bind]. rewrite Hh.
  cbn [bind]. rewrite Hk. cbn [bind]. unfold hotp_generate.
  split; [|split].
  - intros L. apply Nat.ltb_lt in L. rewrite L. reflexivity.
  - intros L Hl. apply Nat.ltb_ge in L. rewrite L.
    destruct (Z.ltb_spec length 6); [reflexivity|].
    destruct (Z.ltb_spec 8 length); [reflexivity | lia].
  - intros L Hl Ha. apply Nat.ltb_ge in L. rewrite L.
    destruct (Z.ltb_spec length 6); [lia|].
    destruct (Z.ltb_spec 8 length); [lia|].
    destruct Ha as [-> | ->]; reflexivity.
Qed.

Lemma getHotp_constructor_errors_witness :
  In "b64"%string Names.base64_family
  /\ In "SHA224"%string Names.sha_names
  /\ getattr_decode ("b64" ++ "decode") = Ok b64decode
  /\ Hashes.getattr "SHA224" = Ok SHA224
  /\ b64decode (PyStr (s_ "MTIzNDU2Nzg5MDEy")) = Ok (b_ "123456789012")
  /\ getHotp (s_ "MTIzNDU2Nzg5MDEy") 0 "b64" "SHA224" 6 = Raise ValueError
  /\ b64decode (PyStr rfc4226_key) = Ok (b_ "12345678901234567890")
  /\ getHotp rfc4226_key 0 "b64" "SHA224" 9 = Raise ValueError
  /\ getHotp rfc4226_key 0 "b64" "SHA224" 6 = Raise TypeError.
Proof.
  assert (B : In "b64"%string Names.base64_family) by (left; reflexivity).
  assert (A : In "SHA224"%string Names.sha_names)
    by (right; left; reflexivity).
  split; [exact B|]. split; [exact A|].
  split; [reflexivity|]. split; [reflexivity|]. split; [reflexivity|].
  split.
  { pose proof (getHotp_constructor_errors (s_ "MTIzNDU2Nzg5MDEy") 0 "b64"
                  "SHA224" 6 b64decode SHA224 (b_ "123456789012")
                  B A eq_refl eq_refl eq_refl) as (H & _).
    apply H. cbn. lia. }
  split; [reflexivity|].
  pose proof (getHotp_constructor_errors rfc4226_key 0 "b64" "SHA224" 9
                b64decode SHA224 (b_ "12345678901234567890")
                B A eq_refl eq_refl eq_refl) as (_ & H9 & _).
  pose proof (getHotp_constructor_errors rfc4226_key 0 "b64" "SHA224" 6
                b64decode SHA224 (b_ "12345678901234567890")
                B A eq_refl eq_refl eq_refl) as (_ & _ & H6).
  split.
  - apply H9; [cbn; lia | right; lia].
  - apply H6; [cbn; lia | lia | left; reflexivity].
Defined.

End HotpArguments.

(** ** [HashText] objects *)

Section HashTextObjects.

Import Hashes LibTACrypto LibTACrypto.HashText Base64 Base64Facts.
Import PrimitivesFacts Text TextVectors TextFacts CodecFacts.

Lemma abc_init : __init__ (s_ "abc") "b64" "SHA256" = Ok abc.
Proof. reflexivity. Qed.

Lemma abd_init : __init__ (s_ "abd") "b64" "SHA256" = Ok abd.
Proof. reflexivity. Qed.

Lemma abc_sha1_init : __init__ (s_ "abc") "b64" "SHA1" = Ok abc_sha1.
Proof. reflexivity. Qed.

(** The hash is ASCII text whose length the digest size fixes. *)
Lemma getHash_text (text : str) (base algorithm : string) (s : self) :
  __init__ text base algorithm = Ok s ->
  List.length (getHash s)
  = (4 * ((digest_size (_algorithm s) + 2) / 3))%nat
  /\ forallb base64_char (getHash s) = true
  /\ forallb is_ascii (getHash s) = true.
Proof.
  intros I. pose proof (HashText_init_inv _ _ _ _ I) as ((_ & Ca & _) & _).
  unfold __init__ in I.
  apply bind_Ok in I as (enc & He & I). apply bind_Ok in I as (dec & Hd & I).
  apply bind_Ok in I as (alg & Hg & I). apply bind_Ok in I as (p & Hp & I).
  apply Ok_inj in I. subst s. unfold getHash in *.
  cbn [_baseEncode _baseDecode _algorithm plaintext] in *.
  split; [|split].
  - now rewrite (encode_length _ _ _ He), digest_length.
  - exact (encode_base64_char _ _ _ He).
  - apply Ca.
Qed.

(** X10.  For an object built with a base of the base64 family and one of
    the five SHA algorithms, a plaintext agrees with its own hash: the value
    of [getHash], decoded to a [str], is a string that [isSame] accepts. *)
Theorem isSame_own_hash (text : str) (base algorithm : string) (s : self) :
  In base Names.base64_family ->
  In algorithm Names.sha_names ->
  __init__ text base algorithm = Ok s ->
  exists hashStr : str,
    Codecs.bytes_decode (getHash s) = Ok hashStr
    /\ isSame s hashStr = Ok true.
Proof.
  intros _ _ I. exists (map Byte.to_N (getHash s)).
  exact (isSame_getHash text base algorithm s I).
Qed.

Lemma isSame_own_hash_witness :
  In "b64"%string Names.base64_family
  /\ In "SHA256"%string Names.sha_names
  /\ __init__ (s_ "abc") "b64" "SHA256" = Ok abc
  /\ exists hashStr : str,
       Codecs.bytes_decode (getHash abc) = Ok hashStr
       /\ isSame abc hashStr = Ok true.
Proof.
  assert (B : In "b64"%string Names.base64_family) by (left; reflexivity).
  assert (A : In "SHA256"%string Names.sha_names)
    by (right; right; left; reflexivity).
  split; [exact B|]. split; [exact A|]. split; [exact abc_init|].
  exact (isSame_own_hash (s_ "abc") "b64" "SHA256" abc B A abc_init).
Defined.

(** X11.  For an object built with a base of the base64 family and one of
    the five SHA algorithms, [isSame] compares text, not decoded bytes: it
    returns [True] for the exact text of the hash and for no other string,
    returns a boolean for every string of scalar values, and raises
    [UnicodeEncodeError] for a string with a lone surrogate. *)
Theorem isSame_outcome (text : str) (base algorithm : string) (s : self)
  (hashStr : str) :
  In base Names.base64_family ->
  In algorithm Names.sha_names ->
  __init__ text base algorithm = Ok s ->
  (isSame s hashStr = Ok true <-> hashStr = map Byte.to_N (getHash s))
  /\ (forallb is_scalar hashStr = true ->
      exists r, isSame s hashStr = Ok r)
  /\ (forallb is_scalar hashStr = false ->
      isSame s hashStr = Raise UnicodeEncodeError).
Proof.
  intros _ _ I. pose proof (isSame_getHash _ _ _ _ I) as (Hd & Hs).
  pose proof (str_encode_scalar hashStr) as E. unfold isSame.
  split; [split|split].
  - intros H. apply bind_Ok in H as (x & Hx & H). apply Ok_inj in H.
    apply bytes_eqb_eq in H. subst x. apply decode_encode in Hx.
    congruence.
  - intros ->. exact Hs.
  - intros Hv. rewrite Hv in E. destruct E as (b & ->). cbn [bind].
    eexists; reflexivity.
  - intros Hv. rewrite Hv in E. rewrite E. reflexivity.
Qed.

Lemma isSame_outcome_witness :
  In "b64"%string Names.base64_family
  /\ In "SHA256"%string Names.sha_names
  /\ __init__ (s_ "abc") "b64" "SHA256" = Ok abc
  /\ (isSame abc (s_ "ungWv48Bz+pBQUDeXa4iI7ADYaOWF3qctBD/YfIAFa0")
      = Ok true
      <-> s_ "ungWv48Bz+pBQUDeXa4iI7ADYaOWF3qctBD/YfIAFa0"
          = map Byte.to_N (getHash abc))
  /\ isSame abc (s_ "ungWv48Bz+pBQUDeXa4iI7ADYaOWF3qctBD/YfIAFa0")
     = Ok false
  /\ isSame abc [0xD800%N] = Raise UnicodeEncodeError.
Proof.
  assert (B : In "b64"%string Names.base64_family) by (left; reflexivity).
  assert (A : In "SHA256"%string Names.sha_names)
    by (right; right; left; reflexivity).
  split; [exact B|]. split; [exact A|]. split; [exact abc_init|].
  pose proof (isSame_outcome (s_ "abc") "b64" "SHA256" abc
                (s_ "ungWv48Bz+pBQUDeXa4iI7ADYaOWF3qctBD/YfIAFa0")
                B A abc_init) as (H1 & _).
  pose proof (isSame_outcome (s_ "abc") "b64" "SHA256" abc [0xD800%N]
                B A abc_init) as (_ & _ & H3).
  split; [exact H1|]. split; [vm_compute; reflexivity|].
  apply H3. reflexivity.
Defined.

(** X12.  Between two objects built with one base of the base64 family and
    one of the five SHA algorithms, the second accepts the hash of the
    first exactly when the raw digests of the two plaintexts are equal: the
    encoding adds no collision of its own. *)
Theorem isSame_other_plaintext (text text' : str) (base algorithm : string)
  (s s' : self) :
  In base Names.base64_family ->
  In algorithm Names.sha_names ->
  __init__ text base algorithm = Ok s ->
  __init__ text' base algorithm = Ok s' ->
  exists r : bool,
    isSame s' (map Byte.to_N (getHash s)) = Ok r
    /\ (r = true <->
        digest (_algorithm s) (plaintext s')
        = digest (_algorithm s) (plaintext s)).
Proof. intros _ _. apply isSame_iff_digest. Qed.

Lemma isSame_other_plaintext_witness :
  In "b64"%string Names.base64_family
  /\ In "SHA256"%string Names.sha_names
  /\ __init__ (s_ "abc") "b64" "SHA256" = Ok abc
  /\ __init__ (s_ "abd") "b64" "SHA256" = Ok abd
  /\ exists r : bool,
       isSame abd (map Byte.to_N (getHash abc)) = Ok r
       /\ (r = true <->
           digest (_algorithm abc) (plaintext abd)
           = digest (_algorithm abc) (plaintext abc)).
Proof.
  assert (B : In "b64"%string Names.base64_family) by (left; reflexivity).
  assert (A : In "SHA256"%string Names.sha_names)
    by (right; right; left; reflexivity).
  split; [exact B|]. split; [exact A|].
  split; [exact abc_init|]. split; [exact abd_init|].
  exact (isSame_other_plaintext (s_ "abc") (s_ "abd") "b64" "SHA256" abc abd
           B A abc_init abd_init).
Defined.

(** X13.  For an object built with a base of the base64 family and one of
    the five SHA algorithms, the value of [getHash] is base64 text of
    [4 * ceil(digest_size / 3)] characters, 44 for SHA256, and the decoder
    of the object gives the raw digest back from it. *)
Theorem getHash_shape (text : str) (base algorithm : string) (s : self) :
  In base Names.base64_family ->
  In algorithm Names.sha_names ->
  __init__ text base algorithm = Ok s ->
  List.length (getHash s)
  = (4 * ((digest_size (_algorithm s) + 2) / 3))%nat
  /\ forallb base64_char (getHash s) = true
  /\ _baseDecode s (PyBytes (getHash s))
     = Ok (digest (_algorithm s) (plaintext s))
  /\ List.length (digest (_algorithm s) (plaintext s))
     = digest_size (_algorithm s).
Proof.
  intros _ _ I.
  pose proof (HashText_init_inv _ _ _ _ I) as ((Crt & _) & _).
  destruct (getHash_text _ _ _ _ I) as (L & C & _).
  split; [exact L|]. split; [exact C|]. split; [apply Crt|].
  apply digest_length.
Qed.

Lemma getHash_shape_witness :
  In "b64"%string Names.base64_family
  /\ In "SHA256"%string Names.sha_names
  /\ __init__ (s_ "abc") "b64" "SHA256" = Ok abc
  /\ List.length (getHash abc) = 44%nat
  /\ forallb base64_char (getHash abc) = true
  /\ _baseDecode abc (PyBytes (getHash abc))
     = Ok (digest (_algorithm abc) (plaintext abc))
  /\ List.length (digest (_algorithm abc) (plaintext abc)) = 32%nat.
Proof.
  assert (B : In "b64"%string Names.base64_family) by (left; reflexivity).
  assert (A : In "SHA256"%string Names.sha_names)
    by (right; right; left; reflexivity).
  split; [exact B|]. split; [exact A|]. split; [exact abc_init|].
  exact (getHash_shape (s_ "abc") "b64" "SHA256" abc B A abc_init).
Defined.

(** X14.  With names the library knows, [HashText] is built exactly for the
    texts of scalar values, and the bytes it holds decode back to the
    text; a text with a lone surrogate raises [UnicodeEncodeError]. *)
Theorem HashText_init_outcome (text : str) (base algorithm : string)
  (baseEncode : bytes -> bytes) (baseDecode : object -> result bytes)
  (h : HashAlgorithm) :
  getattr_encode (base ++ "encode") = Ok baseEncode ->
  getattr_decode (base ++ "decode") = Ok baseDecode ->
  Hashes.getattr algorithm = Ok h ->
  (forallb is_scalar text = true ->
   exists s, __init__ text base algorithm = Ok s
             /\ Codecs.bytes_decode (plaintext s) = Ok text)
  /\ (forallb is_scalar text = false ->
      __init__ text base algorithm = Raise UnicodeEncodeError).
Proof.
  intros He Hd Hh. unfold __init__. rewrite He. cbn [bind]. rewrite Hd.
  cbn [bind]. rewrite Hh. cbn [bind].
  pose proof (str_encode_scalar text) as E. split; intros Hv; rewrite Hv in E.
  - destruct E as (b & Hb). rewrite Hb. cbn [bind]. eexists.
    split; [reflexivity|]. cbn [plaintext]. now apply decode_encode.
  - rewrite E. reflexivity.
Qed.

Lemma HashText_init_outcome_witness :
  getattr_encode ("b64" ++ "encode") = Ok b64encode
  /\ getattr_decode ("b64" ++ "decode") = Ok b64decode
  /\ Hashes.getattr "SHA256" = Ok SHA256
  /\ (exists s, __init__ (s_ "abc") "b64" "SHA256" = Ok s
                /\ Codecs.bytes_decode (plaintext s) = Ok (s_ "abc"))
  /\ __init__ [0xD800%N] "b64" "SHA256" = Raise UnicodeEncodeError.
Proof.
  split; [reflexivity|]. split; [reflexivity|]. split; [reflexivity|].
  pose proof (HashText_init_outcome (s_ "abc") "b64" "SHA256" b64encode
                b64decode SHA256 eq_refl eq_refl eq_refl) as (H1 & _).
  pose proof (HashText_init_outcome [0xD800%N] "b64" "SHA256" b64encode
                b64decode SHA256 eq_refl eq_refl eq_refl) as (_ & H2).
  split; [apply H1 | apply H2]; reflexivity.
Defined.

(** X19.  Among the five SHA algorithms and the bases of the base64
    family, a hash made under one algorithm is never accepted by an object
    that uses another: the five digest sizes give base64 texts of five
    different lengths, so [isSame] returns [False] whatever the two
    plaintexts and whichever bases of the family the two objects use. *)
Theorem isSame_other_algorithm (text text' : str)
  (base base' algorithm algorithm' : string) (s s' : self) :
  In base Names.base64_family ->
  In base' Names.base64_family ->
  In algorithm Names.sha_names ->
  In algorithm' Names.sha_names ->
  __init__ text base algorithm = Ok s ->
  __init__ text' base' algorithm' = Ok s' ->
  _algorithm s <> _algorithm s' ->
  isSame s' (map Byte.to_N (getHash s)) = Ok false.
Proof.
  intros _ _ _ _ I I' N.
  destruct (getHash_text _ _ _ _ I) as (L & _ & A).
  destruct (getHash_text _ _ _ _ I') as (L' & _ & _).
  unfold isSame. rewrite str_encode_ascii by exact A. cbn [bind]. f_equal.
  destruct (bytes_eqb (getHash s') (getHash s)) eqn:E; [|reflexivity].
  exfalso. apply bytes_eqb_eq in E.
  apply (f_equal (@List.length byte)) in E. rewrite L, L' in E.
  destruct (_algorithm s), (_algorithm s'); cbn in E;
    first [discriminate E | now apply N].
Qed.

Lemma isSame_other_algorithm_witness :
  In "b64"%string Names.base64_family
  /\ In "SHA1"%string Names.sha_names
  /\ In "SHA256"%string Names.sha_names
  /\ __init__ (s_ "abc") "b64" "SHA1" = Ok abc_sha1
  /\ __init__ (s_ "abc") "b64" "SHA256" = Ok abc
  /\ _algorithm abc_sha1 <> _algorithm abc
  /\ isSame abc (map Byte.to_N (getHash abc_sha1)) = Ok false.
Proof.
  assert (N : _algorithm abc_sha1 <> _algorithm abc) by discriminate.
  assert (B : In "b64"%string Names.base64_family) by (left; reflexivity).
  assert (A1 : In "SHA1"%string Names.sha_names) by (left; reflexivity).
  assert (A : In "SHA256"%string Names.sha_names)
    by (right; right; left; reflexivity).
  split; [exact B|]. split; [exact A1|]. split; [exact A|].
  split; [exact abc_sha1_init|]. split; [exact abc_init|].
  split; [exact N|].
  exact (isSame_other_algorithm (s_ "abc") (s_ "abc") "b64" "b64" "SHA1"
           "SHA256" abc_sha1 abc B B A1 A abc_sha1_init abc_init N).
Defined.

End HashTextObjects.

(** ** Identities and names *)

Section Identities.

Import Hashes Primitives Asymmetric LibTACrypto LibTACrypto.PreSharedKey.
Import Vectors Base64Facts UrllibFacts PrimitivesFacts X25519Facts.
Import PreSharedKeyFacts VectorFacts Text TextFacts SeedFacts CodecFacts.
Import NameFacts.

(** X15.  Both sides are on the curve x25519, with one base of the base64
    family and with SHA algorithms.  On the key the peer exported,
    [generate] fails first on the exchange, whatever the identity; once the
    exchange succeeds it raises [UnicodeEncodeError] for an identity with a
    lone surrogate, assigning nothing, and returns a PSK that it assigns for
    every other identity. *)
Theorem generate_outcome (rndA rndB : bytes)
  (curve base algorithm curveB algorithmB : string) (a b : self)
  (user : str) :
  lower curve = "x25519"%string ->
  lower curveB = "x25519"%string ->
  In base Names.base64_family ->
  In algorithm Names.sha_names ->
  In algorithmB Names.sha_names ->
  __init__ rndA curve base algorithm = Ok a ->
  __init__ rndB curveB base algorithmB = Ok b ->
  let shared :=
    exchange (_ECPrivateKey a) (_pvtKey a)
      (public_bytes (_ECPrivateKey b) (_pvtKey b)) in
  let out := generate a user (fst (exportPubKey b)) in
  (forall e, shared = Raise e -> out = (Raise e, a))
  /\ (forall k, shared = Ok k -> forallb is_scalar user = false ->
      out = (Raise UnicodeEncodeError, a))
  /\ (forall k, shared = Ok k -> forallb is_scalar user = true ->
      exists v, out = (Ok v, set_PSK a v)).
Proof.
  intros _ _ _ _ _ Ia Ib. pose proof (init_codec_ok _ _ _ _ _ Ia) as Ca.
  pose proof (init_codec_ok _ _ _ _ _ Ib) as Cb.
  apply init_inv in Ia as (Pa & Qa & _ & Ea & Da & _).
  apply init_inv in Ib as (Pb & Qb & _ & Eb & Db & _).
  assert (E : _baseDecode a = _baseDecode b) by congruence.
  assert (Cab : Base64.codec_ok (_baseEncode b) (_baseDecode a))
    by (rewrite E; exact Cb).
  cbv zeta. unfold generate.
  rewrite (derive_exported a b user Qa Pb Cab).
  pose proof (str_encode_scalar user) as U.
  split; [|split].
  - intros e ->. reflexivity.
  - intros k -> Hu. rewrite Hu in U. cbn [bind]. rewrite U. reflexivity.
  - intros k -> Hu. rewrite Hu in U. destruct U as (info & ->). cbn [bind].
    rewrite hkdf_derive_20. cbn [bind].
    destruct Ca as (_ & Cascii & _).
    rewrite bytes_decode_ascii by apply Cascii. eexists; reflexivity.
Qed.

Lemma generate_outcome_witness :
  lower "x25519" = "x25519"%string
  /\ In "b64"%string Names.base64_family
  /\ In "SHA256"%string Names.sha_names
  /\ __init__ alice_private "x25519" "b64" "SHA256" = Ok alice
  /\ __init__ bob_private "x25519" "b64" "SHA256" = Ok bob
  /\ exchange (_ECPrivateKey alice) (_pvtKey alice)
       (public_bytes (_ECPrivateKey bob) (_pvtKey bob)) = Ok shared_secret
  /\ generate alice [0xD800%N] (fst (exportPubKey bob))
     = (Raise UnicodeEncodeError, alice)
  /\ exists v, generate alice (s_ "alice") (fst (exportPubKey bob))
               = (Ok v, set_PSK alice v).
Proof.
  assert (B : In "b64"%string Names.base64_family) by (left; reflexivity).
  assert (A : In "SHA256"%string Names.sha_names)
    by (right; right; left; reflexivity).
  pose proof (generate_outcome alice_private bob_private "x25519" "b64"
                "SHA256" "x25519" "SHA256" alice bob [0xD800%N]
                eq_refl eq_refl B A A alice_init bob_init) as (_ & H2 & _).
  pose proof (generate_outcome alice_private bob_private "x25519" "b64"
                "SHA256" "x25519" "SHA256" alice bob (s_ "alice")
                eq_refl eq_refl B A A alice_init bob_init) as (_ & _ & H3).
  split; [reflexivity|]. split; [exact B|]. split; [exact A|].
  split; [exact alice_init|]. split; [exact bob_init|].
  split; [exact alice_exchange|]. split.
  - exact (H2 shared_secret alice_exchange eq_refl).
  - exact (H3 shared_secret alice_exchange eq_refl).
Defined.

(** X16.  The encoding the code applies to an identity and to a plaintext
    loses nothing: [bytes.decode] gives the string back from what
    [str.encode] returned, so two different strings are never encoded to
    the same bytes. *)
Theorem encode_round_trip (s : str) (b : bytes) :
  Codecs.str_encode s = Ok b ->
  Codecs.bytes_decode b = Ok s
  /\ forall t : str, Codecs.str_encode t = Ok b -> t = s.
Proof.
  intros H. split; [now apply decode_encode|].
  intros t Ht. exact (str_encode_inj t s b Ht H).
Qed.

Lemma encode_round_trip_witness :
  Codecs.str_encode [0x61; 0xE9; 0x20AC; 0x1F600]%N
  = Ok (fromhex "61c3a9e282acf09f9880")
  /\ Codecs.bytes_decode (fromhex "61c3a9e282acf09f9880")
     = Ok [0x61; 0xE9; 0x20AC; 0x1F600]%N
  /\ forall t : str,
       Codecs.str_encode t = Ok (fromhex "61c3a9e282acf09f9880") ->
       t = [0x61; 0xE9; 0x20AC; 0x1F600]%N.
Proof.
  split; [reflexivity|].
  exact (encode_round_trip [0x61; 0xE9; 0x20AC; 0x1F600]%N
           (fromhex "61c3a9e282acf09f9880") eq_refl).
Defined.

(** X17.  The curve is named without regard to case: every spelling that
    [lower] turns into [x25519] builds the instance that [x25519]
    builds. *)
Theorem curve_name_case (rnd : bytes) (curve base algorithm : string) :
  lower curve = "x25519"%string ->
  __init__ rnd curve base algorithm = __init__ rnd "x25519" base algorithm.
Proof.
  intros H. unfold __init__.
  rewrite H, (capitalize_x25519 curve H). reflexivity.
Qed.

Lemma curve_name_case_witness :
  lower "X25519" = "x25519"%string
  /\ __init__ alice_private "X25519" "b64" "SHA256"
     = __init__ alice_private "x25519" "b64" "SHA256".
Proof.
  split; [reflexivity|].
  exact (curve_name_case alice_private "X25519" "b64" "SHA256" eq_refl).
Defined.

End Identities.

(** ** Values of different lengths *)

Section HotpDigits.

Import Hashes Primitives LibTACrypto Vectors Base64 HotpFacts DigitsFacts.

(** X18.  For one PSK, one counter and one algorithm, the value of fewer
    digits is the end of the value of more digits: the six-digit value is
    the last six digits of the eight-digit one. *)
Theorem getHotp_shorter_is_suffix (preSharedKey : str) (count : Z)
  (base algorithm : string) (length length' : Z) (otp otp' : bytes) :
  getHotp preSharedKey count base algorithm length = Ok (PyBytes otp) ->
  getHotp preSharedKey count base algorithm length' = Ok (PyBytes otp') ->
  length <= length' ->
  otp = skipn (Z.to_nat (length' - length)) otp'.
Proof.
  unfold getHotp. intros H H' L.
  apply bind_Ok in H as (dec & Hd & H). rewrite Hd in H'. cbn [bind] in H'.
  apply bind_Ok in H as (h & Hh & H). rewrite Hh in H'. cbn [bind] in H'.
  apply bind_Ok in H as (key & Hk & H). rewrite Hk in H'. cbn [bind] in H'.
  apply fmap_Ok in H as (o & H & E). injection E as <-.
  apply fmap_Ok in H' as (o' & H' & E'). injection E' as <-.
  unfold hotp_generate in H, H'.
  destruct (List.length key <? 16)%nat; [discriminate|].
  destruct (Z.ltb_spec length 6) as [|L6]; [discriminate|].
  destruct (Z.ltb_spec 8 length) as [|L8]; [discriminate|].
  destruct (Z.ltb_spec length' 6) as [|L6']; [discriminate|].
  destruct (Z.ltb_spec 8 length') as [|L8']; [discriminate|].
  cbn [orb] in H, H'.
  assert (T : exists t,
             otp = format_zero_padded (t mod 10 ^ length) (Z.to_nat length)
             /\ otp' = format_zero_padded (t mod 10 ^ length')
                         (Z.to_nat length')).
  { destruct h; try discriminate;
      (destruct (dynamic_truncate _ key count) as [t|e]; [|discriminate]);
      cbn [bind] in H, H'; apply Ok_inj in H, H'; exists t; now split. }
  destruct T as (t & -> & ->).
  rewrite <- (Z2Nat.id length) at 1 by lia.
  rewrite <- (Z2Nat.id length') at 2 by lia.
  replace (Z.to_nat (length' - length))
    with (Z.to_nat length' - Z.to_nat length)%nat by lia.
  apply format_zero_padded_suffix. lia.
Qed.

Lemma getHotp_shorter_is_suffix_witness :
  getHotp rfc4226_key 0 "b64" "SHA1" 6 = Ok (PyBytes (b_ "755224"))
  /\ getHotp rfc4226_key 0 "b64" "SHA1" 8 = Ok (PyBytes (b_ "84755224"))
  /\ 6 <= 8
  /\ b_ "755224" = skipn (Z.to_nat (8 - 6)) (b_ "84755224").
Proof.
  assert (H6 : getHotp rfc4226_key 0 "b64" "SHA1" 6
               = Ok (PyBytes (b_ "755224"))) by (vm_compute; reflexivity).
  assert (H8 : getHotp rfc4226_key 0 "b64" "SHA1" 8
               = Ok (PyBytes (b_ "84755224"))) by (vm_compute; reflexivity).
  assert (L : 6 <= 8) by lia.
  split; [exact H6|]. split; [exact H8|]. split; [exact L|].
  exact (getHotp_shorter_is_suffix rfc4226_key 0 "b64" "SHA1" 6 8 _ _
           H6 H8 L).
Defined.

End HotpDigits.

(** ** Two texts of one public key *)

Section PeerKeyTexts.

Import Hashes Primitives Asymmetric LibTACrypto LibTACrypto.PreSharedKey.
Import Vectors Base64Facts UrllibFacts PrimitivesFacts X25519Facts.
Import PreSharedKeyFacts VectorFacts TopBit TopBitFacts.

(** X20.  The top bit of the peer's public key is not read: the same key
    with that bit inverted is written as another text, and [generate] has
    the same outcome and the same effect on the two texts. *)
Theorem generate_ignores_top_bit (rnd : bytes)
  (curve base algorithm : string) (s : self) (user : str) (raw : bytes) :
  __init__ rnd curve base algorithm = Ok s ->
  List.length raw = 32%nat ->
  Urllib.quote_from_bytes (_baseEncode s (flip_top_bit raw))
  <> Urllib.quote_from_bytes (_baseEncode s raw)
  /\ generate s user
       (Urllib.quote_from_bytes (_baseEncode s (flip_top_bit raw)))
     = generate s user (Urllib.quote_from_bytes (_baseEncode s raw)).
Proof.
  intros I H.
  pose proof (init_codec_ok _ _ _ _ _ I) as (Crt & _ & _).
  split.
  { intros E. apply (f_equal Urllib.unquote_to_bytes) in E.
    rewrite !unquote_quote in E. apply Ok_inj in E.
    apply (f_equal (fun x => _baseDecode s (PyBytes x))) in E.
    rewrite !Crt in E. apply Ok_inj in E.
    exact (flip_top_bit_differs raw H E). }
  apply init_inv in I as (Hp & Hq & _).
  unfold generate, derive. rewrite !unquote_quote. cbn [bind].
  rewrite !Crt. cbn [bind]. rewrite Hp, Hq.
  cbn [from_public_bytes X25519].
  rewrite (flip_top_bit_length raw H), H.
  change (32 =? 32)%nat with true. cbn [bind exchange X25519].
  rewrite (x25519_flip _ raw H). reflexivity.
Qed.

Lemma generate_ignores_top_bit_witness :
  __init__ alice_private "x25519" "b64" "SHA256" = Ok alice
  /\ List.length bob_public = 32%nat
  /\ Urllib.quote_from_bytes (_baseEncode alice (flip_top_bit bob_public))
     <> Urllib.quote_from_bytes (_baseEncode alice bob_public)
  /\ generate alice (s_ "alice")
       (Urllib.quote_from_bytes (_baseEncode alice (flip_top_bit bob_public)))
     = generate alice (s_ "alice")
         (Urllib.quote_from_bytes (_baseEncode alice bob_public)).
Proof.
  split; [exact alice_init|]. split; [reflexivity|].
  exact (generate_ignores_top_bit alice_private "x25519" "b64" "SHA256"
           alice (s_ "alice") bob_public alice_init eq_refl).
Defined.

End PeerKeyTexts.
